(** * Sub-Store backend: the Gist backup handler

    A shallow embedding of [gistBackup] from
    [backend/src/restful/index.js] and the properties of the
    backup/restore subsystem that are stated about it.

    The handler is an [async] function that talks to four collaborators
    whose sources are other modules of the backend: the application
    object [$] ([@/core/app]), the [Gist] client ([@/utils/gist]), the
    [migrate] function ([@/utils/migration]) and the response helpers
    ([@/restful/response], [@/restful/errors]).  They enter the
    development as interfaces (type classes) carrying the contract the
    specification gives them; the handler itself is transcribed
    statement by statement into a state-and-exception monad. *)

From Stdlib Require Import ZArith Ascii String.
From stdpp Require Import base strings list gmap pretty.

Local Open Scope string_scope.
Local Open Scope Z_scope.

(** * JavaScript values *)

Module JS.

(** The fragment of JavaScript values that the handler can observe:
    primitives, plain objects (property lists in insertion order) and
    [Error] instances (with their own enumerable properties, which a
    fresh error does not have).  Numbers are the integers (a [syncTime]
    is a count of milliseconds). *)
#[warnings="-register-all"]
Inductive value : Type :=
| VUndefined
| VNull
| VBool (b : bool)
| VNum (n : Z)
| VStr (s : string)
| VObj (props : list (string * value))
| VError (name message : string) (props : list (string * value)).

(** Result of evaluating a statement or a call: normal completion or a
    thrown value (for an [async] call: fulfilled or rejected). *)
Inductive Completion (A : Type) : Type :=
| Normal (a : A)
| Throw (e : value).
Arguments Normal {A} a.
Arguments Throw {A} e.

(** ToBoolean. *)
Definition truthy (v : value) : bool :=
  match v with
  | VUndefined | VNull => false
  | VBool b => b
  | VNum n => negb (n =? 0)
  | VStr s => negb (String.eqb s "")
  | VObj _ | VError _ _ _ => true
  end.

(** [v === 'lit'] for a string literal, as in a [case 'lit':] label. *)
Definition strict_eq_str (v : value) (lit : string) : bool :=
  match v with
  | VStr s => String.eqb s lit
  | _ => false
  end.

(** ToString, as applied by a template literal [`${v}`]. *)
Definition ToString (v : value) : string :=
  match v with
  | VUndefined => "undefined"
  | VNull => "null"
  | VBool true => "true"
  | VBool false => "false"
  | VNum n => pretty n
  | VStr s => s
  | VObj _ => "[object Object]"
  | VError name message _ =>
      if String.eqb message "" then name
      else if String.eqb name "" then message
      else name +:+ ": " +:+ message
  end.

(** Own property lookup in a property list. *)
Fixpoint lookup_prop (k : string) (ps : list (string * value)) : option value :=
  match ps with
  | [] => None
  | (k', v) :: ps' => if String.eqb k' k then Some v else lookup_prop k ps'
  end.

(** Property assignment: an existing property keeps its place, a new
    one is appended. *)
Fixpoint assign_prop (k : string) (v : value) (ps : list (string * value))
  : list (string * value) :=
  match ps with
  | [] => [(k, v)]
  | (k', v') :: ps' =>
      if String.eqb k' k then (k, v) :: ps' else (k', v') :: assign_prop k v ps'
  end.

Definition TypeError (message : string) : value :=
  VError "TypeError" message [].

(** [o.k], and the destructuring [const { k } = o]: undefined and null
    have no properties and throw; the other primitives have no property
    of the names read here; an [Error] instance answers with an own
    property, else with its [message] or [name]. *)
Definition member (k : string) (o : value) : Completion value :=
  match o with
  | VUndefined | VNull =>
      Throw (TypeError ("Cannot read properties of " +:+ ToString o))
  | VObj ps => Normal (default VUndefined (lookup_prop k ps))
  | VError name message ps =>
      Normal (match lookup_prop k ps with
              | Some v => v
              | None =>
                  if String.eqb k "message" then VStr message
                  else if String.eqb k "name" then VStr name
                  else VUndefined
              end)
  | VBool _ | VNum _ | VStr _ => Normal VUndefined
  end.

(** [o.k = v] in strict mode (module code).  The object is updated in
    place in JavaScript; here the updated object is returned and the
    caller rebinds the variable. *)
Definition assign (k : string) (v : value) (o : value) : Completion value :=
  match o with
  | VObj ps => Normal (VObj (assign_prop k v ps))
  | VUndefined | VNull =>
      Throw (TypeError ("Cannot set properties of " +:+ ToString o))
  | VError name message ps => Normal (VError name message (assign_prop k v ps))
  | VBool _ | VNum _ | VStr _ =>
      Throw (TypeError ("Cannot create property '" +:+ k +:+ "'"))
  end.

(** Objects, as opposed to primitives. *)
Definition is_object (o : value) : bool :=
  match o with
  | VObj _ | VError _ _ _ => true
  | _ => false
  end.

End JS.
Export JS.

(** * Responses

    [success(res)] and [failed(res, err)] of [@/restful/response] send
    the reply; the error classes of [@/restful/errors] carry a code, a
    message and optional details. *)

Inductive ErrorType : Type := RequestInvalid | InternalServer | Network.

Record ApiError : Type := mkApiError {
  type : ErrorType;
  code : string;
  message : string;
  details : option string;
}.

(** [new RequestInvalidError(code, message)] *)
Definition RequestInvalidError (c m : string) : ApiError :=
  mkApiError RequestInvalid c m None.

(** [new InternalServerError(code, message, details)] *)
Definition InternalServerError (c m d : string) : ApiError :=
  mkApiError InternalServer c m (Some d).

Inductive Response : Type :=
| Success (data : option value)
| Failed (err : ApiError).

(** * Observable calls

    Every call the handler makes to a collaborator, in program order.
    The calls that can fail record how they completed. *)
Inductive event : Type :=
| ERead (key : string)                    (* [$.read(key)] *)
| EWrite (data : value) (key : string)    (* [$.write(data, key)] *)
| ESetCache (data : value)                (* [$.cache = data] *)
| EPersistCache                           (* [$.persistCache()] *)
| EInfo (msg : string)                    (* [$.info(msg)] *)
| EUpload (file : string) (content : value) (r : Completion unit)
                                          (* [gist.upload({[file]: {content}})] *)
| EDownload (file : string) (r : Completion string)
                                          (* [gist.download(file)] *)
| EMigrate (r : Completion unit).         (* [migrate()] *)

Definition is_store_call (e : event) : bool :=
  match e with
  | ERead _ | EWrite _ _ | ESetCache _ | EPersistCache => true
  | _ => false
  end.

Definition is_write (e : event) : bool :=
  match e with
  | EWrite _ _ | ESetCache _ | EPersistCache => true
  | _ => false
  end.

Definition is_network_call (e : event) : bool :=
  match e with
  | EUpload _ _ _ | EDownload _ _ => true
  | _ => false
  end.

Definition is_migrate (e : event) : bool :=
  match e with
  | EMigrate _ => true
  | _ => false
  end.

(** * Collaborators *)

(** Modelled from the spec: the application object [$] of [@/core/app]
    is not part of the sources.  It is the spec's LocalStateStore:
    [$.read('#sub-store')] / [$.write(content, '#sub-store')] are
    readAll / writeAll on the serialized state document,
    [$.read(SETTINGS_KEY)] / [$.write(settings, SETTINGS_KEY)] are
    readSettings / writeSettings; [$.cache] is the in-memory copy that
    the Node variant uploads and restores, [$.persistCache()] flushes
    it, [$.env.isNode] selects the variant.  The single law is the
    spec's atomicity requirement: a write is observed by the next read
    of the same key. *)
Class LocalStateStore (St : Type) : Type := {
  read : string -> St -> value;
  write : value -> string -> St -> St;
  env_isNode : St -> bool;
  cache : St -> value;
  set_cache : value -> St -> St;
  persistCache : St -> St;
  read_write : forall data key s, read key (write data key s) = data;
}.

(** [new Gist({ token, key })] *)
Record Gist : Type := mkGist { token : value; key : string }.

(** Modelled from the spec: the [Gist] client of [@/utils/gist] is not
    part of the sources.  It is the spec's RemoteBackupClient: [upload]
    stores a named document or fails, [download] returns a named
    document or fails; [R] is the state of the remote service together
    with whatever decides whether a call fails.  The law is the
    contract that a blob is stored and returned unmodified. *)
Class RemoteBackupClient (R : Type) : Type := {
  upload : Gist -> string -> value -> R -> Completion unit * R;
  download : Gist -> string -> R -> Completion string * R;
  download_upload :
    forall g file content r r1 d r2,
      upload g file content r = (Normal tt, r1) ->
      download g file r1 = (Normal d, r2) ->
      VStr d = content;
}.

(** The rest of what the handler imports: the constants of
    [@/constants], the [JSON] and [Date] built-ins and the migration
    step of [@/utils/migration] (the spec's MigrationRunner: a black
    box acting on the local store, which may throw).
    [JSON_stringify v space] is [JSON.stringify(v, null, space)], with
    [None] for [undefined]; [clock n] is what [new Date().getTime()]
    returns once [n] calls have been made. *)
Class Host (St : Type) : Type := {
  SETTINGS_KEY : string;
  GIST_BACKUP_KEY : string;
  GIST_BACKUP_FILE_NAME : string;
  JSON_stringify : value -> string -> option string;
  JSON_parse : string -> Completion value;
  clock : nat -> Z;
  migrate : St -> Completion unit * St;
}.

(** * The state and exception monad of a request *)

Section Handler.

Context {St R : Type} `{LocalStateStore St} `{RemoteBackupClient R} `{Host St}.

(** What a request can change: the local store [$], the remote
    service, the calls made so far and the replies written to [res]. *)
Record World : Type := mkWorld {
  app : St;
  remote : R;
  trace : list event;
  sent : list Response;
}.

Definition M (A : Type) : Type := World -> Completion A * World.

Definition ret {A} (a : A) : M A := fun w => (Normal a, w).

Definition throw {A} (e : value) : M A := fun w => (Throw e, w).

Definition bind {A B} (m : M A) (k : A -> M B) : M B :=
  fun w =>
    match m w with
    | (Normal a, w') => k a w'
    | (Throw e, w') => (Throw e, w')
    end.

(** [try { body } catch (err) { handler }] *)
Definition try_catch {A} (body : M A) (handler : value -> M A) : M A :=
  fun w =>
    match body w with
    | (Normal a, w') => (Normal a, w')
    | (Throw e, w') => handler e w'
    end.

(** Lifting of an expression that may throw. *)
Definition eval {A} (c : Completion A) : M A := fun w => (c, w).

Notation "x <- m ;; k" := (bind m (fun x => k))
  (at level 100, m at next level, k at level 200, right associativity).
Notation "m ;; k" := (bind m (fun _ => k))
  (at level 100, k at level 200, right associativity).

Definition emit (e : event) : M unit :=
  fun w => (Normal tt, mkWorld (app w) (remote w) (trace w ++ [e]) (sent w)).

Definition update_app (f : St -> St) : M unit :=
  fun w => (Normal tt, mkWorld (f (app w)) (remote w) (trace w) (sent w)).

Definition get_app {A} (f : St -> A) : M A := fun w => (Normal (f (app w)), w).

(** [$.read(key)] *)
Definition app_read (k : string) : M value :=
  emit (ERead k) ;; get_app (read k).

(** [$.write(data, key)] *)
Definition app_write (data : value) (k : string) : M unit :=
  emit (EWrite data k) ;; update_app (write data k).

(** [$.cache = data] *)
Definition app_set_cache (data : value) : M unit :=
  emit (ESetCache data) ;; update_app (set_cache data).

(** [$.persistCache()] *)
Definition app_persistCache : M unit :=
  emit EPersistCache ;; update_app persistCache.

(** [$.info(msg)] *)
Definition app_info (msg : string) : M unit := emit (EInfo msg).

(** [new Date().getTime()] *)
Definition Date_getTime : M Z := fun w => (Normal (clock (length (trace w))), w).

(** [await gist.upload({ [file]: { content } })] *)
Definition gist_upload (gist : Gist) (file : string) (content : value) : M unit :=
  fun w =>
    let '(r, rem) := upload gist file content (remote w) in
    (r, mkWorld (app w) rem (trace w ++ [EUpload file content r]) (sent w)).

(** [await gist.download(file)] *)
Definition gist_download (gist : Gist) (file : string) : M string :=
  fun w =>
    let '(r, rem) := download gist file (remote w) in
    (r, mkWorld (app w) rem (trace w ++ [EDownload file r]) (sent w)).

(** [migrate()] *)
Definition run_migrate : M unit :=
  fun w =>
    let '(r, a) := migrate (app w) in
    (r, mkWorld a (remote w) (trace w ++ [EMigrate r]) (sent w)).

Definition respond (r : Response) : M unit :=
  fun w => (Normal tt, mkWorld (app w) (remote w) (trace w) (sent w ++ [r])).

(** [success(res)] *)
Definition success : M unit := respond (Success None).

(** [failed(res, err)] *)
Definition failed (err : ApiError) : M unit := respond (Failed err).

(** A template literal slot holding [JSON.stringify(v)]. *)
Definition stringified (v : value) : string :=
  default "undefined" (JSON_stringify v "").

(** [JSON.stringify($.cache, null, `  `)] as a value. *)
Definition stringify_cache (c : value) : value :=
  match JSON_stringify c "  " with
  | Some s => VStr s
  | None => VUndefined
  end.

(** * The handler

    [async function gistBackup(req, res)], with [action] the value of
    [req.query.action].  The [switch] has no [default] case.
    [settings] is a reference to an object in JavaScript; each
    assignment to [settings.syncTime] is followed at once by the
    [$.write] of the same object, so updating in place and rebinding
    the variable give the same store at every call. *)
Definition gistBackup (action : value) : M unit :=
  (* read token *)
  s0 <- app_read SETTINGS_KEY ;;
  gistToken <- eval (member "gistToken" s0) ;;
  if negb (truthy gistToken) then
    failed (RequestInvalidError "GIST_TOKEN_NOT_FOUND"
              "GitHub Token is required for backup!")
  else
    let gist := mkGist gistToken GIST_BACKUP_KEY in
    try_catch
      (settings <- app_read SETTINGS_KEY ;;
       updated <- eval (member "syncTime" settings) ;;
       (if strict_eq_str action "upload" then
          (* update syncTime *)
          now <- Date_getTime ;;
          settings <- eval (assign "syncTime" (VNum now) settings) ;;
          app_write settings SETTINGS_KEY ;;
          content <- app_read "#sub-store" ;;
          isNode <- get_app env_isNode ;;
          content <- (if isNode : bool
                      then get_app (fun a => stringify_cache (cache a))
                      else ret content) ;;
          app_info "上传备份中..." ;;
          try_catch
            (gist_upload gist GIST_BACKUP_FILE_NAME content)
            (fun err =>
               (* restore syncTime if upload failed *)
               settings <- eval (assign "syncTime" updated settings) ;;
               app_write settings SETTINGS_KEY ;;
               throw err)
        else if strict_eq_str action "download" then
          app_info "还原备份中..." ;;
          content <- gist_download gist GIST_BACKUP_FILE_NAME ;;
          (* restore settings *)
          app_write (VStr content) "#sub-store" ;;
          isNode <- get_app env_isNode ;;
          (if isNode : bool then
             content <- eval (JSON_parse content) ;;
             app_set_cache content ;;
             app_persistCache
           else ret tt) ;;
          (* perform migration after restoring from gist *)
          run_migrate
        else ret tt) ;;
       success)
      (fun err =>
         failed (InternalServerError "BACKUP_FAILED"
                   ("Failed to " +:+ ToString action +:+ " data to gist!")
                   ("Reason: " +:+ stringified err))).

End Handler.

Arguments World St R : clear implicits.
Arguments M St R A : clear implicits.

(** * Observations of one request *)

Section Observations.

Context {St R : Type} `{LocalStateStore St} `{RemoteBackupClient R} `{Host St}.

(** The world a request leaves behind. *)
Definition after (action : value) (w : World St R) : World St R :=
  (gistBackup action w).2.

(** How the handler's promise settles: [Throw] is a rejection that no
    [catch] of the handler saw. *)
Definition settles (action : value) (w : World St R) : Completion unit :=
  (gistBackup action w).1.

(** The calls made by the request, in order. *)
Definition calls (action : value) (w : World St R) : list event :=
  drop (length (trace w)) (trace (after action w)).

(** The replies written by the request. *)
Definition replies (action : value) (w : World St R) : list Response :=
  drop (length (sent w)) (sent (after action w)).

(** The stored settings record and its two fields. *)
Definition settings_of (a : St) : value := read SETTINGS_KEY a.

Definition gistToken_of (a : St) : Completion value :=
  member "gistToken" (settings_of a).

Definition syncTime_of (a : St) : Completion value :=
  member "syncTime" (settings_of a).

(** A credential is configured when the settings record has a truthy
    [gistToken]. *)
Definition credential_configured (a : St) : Prop :=
  exists tok, gistToken_of a = Normal tok /\ truthy tok = true.

(** No credential is configured when the settings record is there and
    its [gistToken] is missing or falsy. *)
Definition credential_missing (a : St) : Prop :=
  exists tok, gistToken_of a = Normal tok /\ truthy tok = false.

(** The store as the upload branch leaves it before calling the remote
    service, started at call number [n]. *)
Definition stamped_settings (n : nat) (a : St) : value :=
  match assign "syncTime" (VNum (clock (n + 2))) (settings_of a) with
  | Normal s => s
  | Throw _ => settings_of a
  end.

Definition stamped (n : nat) (a : St) : St :=
  write (stamped_settings n a) SETTINGS_KEY a.

(** The blob the upload branch sends. *)
Definition backup_blob (n : nat) (a : St) : value :=
  if env_isNode (stamped n a)
  then stringify_cache (cache (stamped n a))
  else read "#sub-store" (stamped n a).

(** The settings written back when the upload fails. *)
Definition rolled_back_settings (n : nat) (a : St) : value :=
  match syncTime_of a with
  | Normal updated =>
      match assign "syncTime" updated (stamped_settings n a) with
      | Normal s => s
      | Throw _ => stamped_settings n a
      end
  | Throw _ => stamped_settings n a
  end.

(** The store after the download branch has overwritten it with
    [content], before the migration. *)
Definition restored (content : string) (a : St) : Completion St :=
  let a1 := write (VStr content) "#sub-store" a in
  if env_isNode a1 then
    match JSON_parse content with
    | Normal parsed => Normal (persistCache (set_cache parsed a1))
    | Throw e => Throw e
    end
  else Normal a1.

(** The time at which a request starts: the clock when its first call
    is made. *)
Definition start_time (w : World St R) : Z := clock (length (trace w)).

(** A clock that never runs backwards. *)
Definition monotone (c : nat -> Z) : Prop :=
  forall i j, (i <= j)%nat -> c i <= c j.

(** The reply of the [catch] clause. *)
Definition backup_failed (action err : value) : Response :=
  Failed (InternalServerError "BACKUP_FAILED"
            ("Failed to " +:+ ToString action +:+ " data to gist!")
            ("Reason: " +:+ stringified err)).

(** The reply of the credential check. *)
Definition token_not_found : Response :=
  Failed (RequestInvalidError "GIST_TOKEN_NOT_FOUND"
            "GitHub Token is required for backup!").

(** The calls of the upload branch up to the remote call. *)
Definition upload_prefix (n : nat) (a : St) : list event :=
  [ERead SETTINGS_KEY; ERead SETTINGS_KEY;
   EWrite (stamped_settings n a) SETTINGS_KEY;
   ERead "#sub-store"; EInfo "上传备份中..."].

(** The calls of the download branch up to the remote call. *)
Definition download_prefix : list event :=
  [ERead SETTINGS_KEY; ERead SETTINGS_KEY; EInfo "还原备份中..."].

(** The calls that overwrite the local store with [content]. *)
Definition restore_calls (content : string) (a : St) : list event :=
  EWrite (VStr content) "#sub-store"
  :: (if env_isNode (write (VStr content) "#sub-store" a) then
        match JSON_parse content with
        | Normal parsed => [ESetCache parsed; EPersistCache]
        | Throw _ => []
        end
      else []).

(** The reply after the migration step. *)
Definition migrated_reply (m : Completion unit) : Response :=
  match m with
  | Normal _ => Success None
  | Throw e => backup_failed (VStr "download") e
  end.

(** Number of calls of one kind. *)
Definition count (p : event -> bool) (evs : list event) : nat :=
  length (List.filter p evs).

End Observations.

(** * The handler as a relation

    Every request follows exactly one of eight paths; [path action w]
    relates a request to how it settles and the world it leaves. *)

Section Relation.

Context {St R : Type} `{LocalStateStore St} `{RemoteBackupClient R} `{Host St}.

Implicit Types (w : World St R) (action tok : value).

Inductive path action w : Completion unit * World St R -> Prop :=
| path_unreadable e :
    gistToken_of (app w) = Throw e ->
    path action w
      (Throw e,
       mkWorld (app w) (remote w) (trace w ++ [ERead SETTINGS_KEY]) (sent w))
| path_gate tok :
    gistToken_of (app w) = Normal tok -> truthy tok = false ->
    path action w
      (Normal tt,
       mkWorld (app w) (remote w) (trace w ++ [ERead SETTINGS_KEY])
         (sent w ++ [token_not_found]))
| path_other tok :
    gistToken_of (app w) = Normal tok -> truthy tok = true ->
    action <> VStr "upload" -> action <> VStr "download" ->
    path action w
      (Normal tt,
       mkWorld (app w) (remote w)
         (trace w ++ [ERead SETTINGS_KEY; ERead SETTINGS_KEY])
         (sent w ++ [Success None]))
| path_upload_ok tok r1 :
    gistToken_of (app w) = Normal tok -> truthy tok = true ->
    action = VStr "upload" ->
    upload (mkGist tok GIST_BACKUP_KEY) GIST_BACKUP_FILE_NAME
      (backup_blob (length (trace w)) (app w)) (remote w) = (Normal tt, r1) ->
    path action w
      (Normal tt,
       mkWorld (stamped (length (trace w)) (app w)) r1
         (trace w ++ upload_prefix (length (trace w)) (app w)
            ++ [EUpload GIST_BACKUP_FILE_NAME
                  (backup_blob (length (trace w)) (app w)) (Normal tt)])
         (sent w ++ [Success None]))
| path_upload_failed tok e r1 :
    gistToken_of (app w) = Normal tok -> truthy tok = true ->
    action = VStr "upload" ->
    upload (mkGist tok GIST_BACKUP_KEY) GIST_BACKUP_FILE_NAME
      (backup_blob (length (trace w)) (app w)) (remote w) = (Throw e, r1) ->
    path action w
      (Normal tt,
       mkWorld
         (write (rolled_back_settings (length (trace w)) (app w)) SETTINGS_KEY
            (stamped (length (trace w)) (app w)))
         r1
         (trace w ++ upload_prefix (length (trace w)) (app w)
            ++ [EUpload GIST_BACKUP_FILE_NAME
                  (backup_blob (length (trace w)) (app w)) (Throw e);
                EWrite (rolled_back_settings (length (trace w)) (app w))
                  SETTINGS_KEY])
         (sent w ++ [backup_failed (VStr "upload") e]))
| path_download_failed tok e r1 :
    gistToken_of (app w) = Normal tok -> truthy tok = true ->
    action = VStr "download" ->
    download (mkGist tok GIST_BACKUP_KEY) GIST_BACKUP_FILE_NAME (remote w)
      = (Throw e, r1) ->
    path action w
      (Normal tt,
       mkWorld (app w) r1
         (trace w ++ download_prefix
            ++ [EDownload GIST_BACKUP_FILE_NAME (Throw e)])
         (sent w ++ [backup_failed (VStr "download") e]))
| path_download_unparsed tok d r1 e :
    gistToken_of (app w) = Normal tok -> truthy tok = true ->
    action = VStr "download" ->
    download (mkGist tok GIST_BACKUP_KEY) GIST_BACKUP_FILE_NAME (remote w)
      = (Normal d, r1) ->
    restored d (app w) = Throw e ->
    path action w
      (Normal tt,
       mkWorld (write (VStr d) "#sub-store" (app w)) r1
         (trace w ++ download_prefix
            ++ [EDownload GIST_BACKUP_FILE_NAME (Normal d);
                EWrite (VStr d) "#sub-store"])
         (sent w ++ [backup_failed (VStr "download") e]))
| path_download_restored tok d r1 a2 m a3 :
    gistToken_of (app w) = Normal tok -> truthy tok = true ->
    action = VStr "download" ->
    download (mkGist tok GIST_BACKUP_KEY) GIST_BACKUP_FILE_NAME (remote w)
      = (Normal d, r1) ->
    restored d (app w) = Normal a2 ->
    migrate a2 = (m, a3) ->
    path action w
      (Normal tt,
       mkWorld a3 r1
         (trace w ++ download_prefix
            ++ EDownload GIST_BACKUP_FILE_NAME (Normal d)
            :: restore_calls d (app w) ++ [EMigrate m])
         (sent w ++ [migrated_reply m])).

End Relation.

(** * The stated properties *)

Section Statements.

Context {St R : Type} `{LocalStateStore St} `{RemoteBackupClient R} `{Host St}.

Implicit Types (w : World St R) (action tok : value).

(** The commit property as the specification words it: after a
    successful upload [syncTime] is a timestamp not before the start of
    the attempt and strictly greater than the value it replaces. *)
Definition commit_property w : Prop :=
  monotone clock ->
  replies (VStr "upload") w = [Success None] ->
  exists t,
    syncTime_of (app (after (VStr "upload") w)) = Normal (VNum t)
    /\ start_time w <= t
    /\ forall p, syncTime_of (app w) = Normal (VNum p) -> p < t.

(** The migration property as the specification words it: one
    migration, after the overwrite, whenever the remote download
    succeeds; none when it fails. *)
Definition migration_property w : Prop :=
  forall file r,
    In (EDownload file r) (calls (VStr "download") w) ->
    match r with
    | Normal d =>
        count is_migrate (calls (VStr "download") w) = 1%nat
        /\ exists pre post : list event,
             calls (VStr "download") w
               = (pre ++ EWrite (VStr d) "#sub-store" :: post)%list
             /\ count is_migrate pre = 0%nat
    | Throw _ => count is_migrate (calls (VStr "download") w) = 0%nat
    end.

(** The unknown-action property as the specification words it:
    success, no write, no network call and no store call of any
    kind. *)
Definition unknown_action_property action w : Prop :=
  credential_configured (app w) ->
  action <> VStr "upload" -> action <> VStr "download" ->
  replies action w = [Success None]
  /\ app (after action w) = app w
  /\ count is_write (calls action w) = 0%nat
  /\ count is_network_call (calls action w) = 0%nat
  /\ count is_store_call (calls action w) = 0%nat.

(** Whether [text] occurs in [s]. *)
Definition includes (text s : string) : bool :=
  match String.index 0 text s with
  | Some _ => true
  | None => false
  end.

(** Whether the reason given by a failure reply (its details, or its
    message when it has no details) includes [cause]. *)
Definition reason_includes (cause : string) (r : Response) : bool :=
  match r with
  | Failed err =>
      match details err with
      | Some reason => includes cause reason
      | None => includes cause (message err)
      end
  | Success _ => false
  end.

End Statements.

(** * In-memory collaborators

    One implementation of each interface, used to run the handler on
    concrete requests. *)

Module Mem.

(** A store that keeps every key in one table and the cache beside
    it; [flushed] is the cache as last persisted. *)
Record Store : Type := mkStore {
  isNode : bool;
  table : gmap string value;
  mem_cache : value;
  flushed : value;
}.

Definition store_read (k : string) (s : Store) : value :=
  default VUndefined (table s !! k).

Definition store_write (data : value) (k : string) (s : Store) : Store :=
  mkStore (isNode s) (<[k := data]> (table s)) (mem_cache s) (flushed s).

Definition store_set_cache (data : value) (s : Store) : Store :=
  mkStore (isNode s) (table s) data (flushed s).

Definition store_persistCache (s : Store) : Store :=
  mkStore (isNode s) (table s) (mem_cache s) (mem_cache s).

(** A remote service holding named files per backup key.  [faults]
    lists, for the calls to come, the value a call is rejected with
    ([None]: the call goes through); a file that is absent or does not
    hold text is reported with [missing]. *)
Record Service : Type := mkService {
  files : gmap (string * string) value;
  faults : list (option value);
}.

Definition missing : value := VStr "backup not found".

Definition service_upload (g : Gist) (file : string) (content : value)
    (r : Service) : Completion unit * Service :=
  match faults r with
  | Some e :: rest => (Throw e, mkService (files r) rest)
  | None :: rest =>
      (Normal tt, mkService (<[(key g, file) := content]> (files r)) rest)
  | [] => (Normal tt, mkService (<[(key g, file) := content]> (files r)) [])
  end.

Definition service_fetch (g : Gist) (file : string) (r : Service)
    : Completion string :=
  match files r !! (key g, file) with
  | Some (VStr d) => Normal d
  | _ => Throw missing
  end.

Definition service_download (g : Gist) (file : string) (r : Service)
    : Completion string * Service :=
  match faults r with
  | Some e :: rest => (Throw e, mkService (files r) rest)
  | None :: rest => (service_fetch g file (mkService (files r) rest),
                     mkService (files r) rest)
  | [] => (service_fetch g file r, r)
  end.

End Mem.

(** The [JSON] built-ins on the fragment of values above. *)
Module Json.

Definition dquote : ascii := Ascii.ascii_of_nat 34.
Definition backslash : ascii := Ascii.ascii_of_nat 92.
Definition newline : string := String (Ascii.ascii_of_nat 10) "".

Definition hex_digit (n : N) : ascii :=
  match String.get (N.to_nat n) "0123456789abcdef" with
  | Some c => c
  | None => "0"%char
  end.

(** QuoteJSONString, one code unit. *)
Definition escape (c : ascii) : string :=
  let n := Ascii.N_of_ascii c in
  let esc (x : string) := String backslash x in
  if (n =? 34)%N then esc (String dquote "")
  else if (n =? 92)%N then esc (String backslash "")
  else if (n =? 8)%N then esc "b"
  else if (n =? 9)%N then esc "t"
  else if (n =? 10)%N then esc "n"
  else if (n =? 12)%N then esc "f"
  else if (n =? 13)%N then esc "r"
  else if (n <? 32)%N then
    esc ("u00" +:+ String (hex_digit (n / 16)) (String (hex_digit (n mod 16)) ""))
  else String c "".

Fixpoint escape_all (s : string) : string :=
  match s with
  | EmptyString => ""
  | String c s' => escape c +:+ escape_all s'
  end.

Definition quote (s : string) : string :=
  String dquote (escape_all s) +:+ String dquote "".

Fixpoint join (sep : string) (parts : list string) : string :=
  match parts with
  | [] => ""
  | [p] => p
  | p :: ps => p +:+ sep +:+ join sep ps
  end.

(** SerializeJSONObject, given the serialized members. *)
Definition braces (gap indent : string) (partial : list string) : string :=
  match partial with
  | [] => "{}"
  | _ =>
      if String.eqb gap "" then "{" +:+ join "," partial +:+ "}"
      else
        let inner := indent +:+ gap in
        "{" +:+ newline +:+ inner +:+ join ("," +:+ newline +:+ inner) partial
        +:+ newline +:+ indent +:+ "}"
  end.

(** SerializeJSONProperty: [None] is [undefined].  A property whose
    value serializes to [undefined] is left out; of an [Error] only the
    own enumerable properties are serialized.  Numbers are printed in
    decimal, as [JSON.stringify] prints the integers below 10^21. *)
Fixpoint serialize (gap indent : string) (v : value) {struct v} : option string :=
  let members :=
    fix members (ps : list (string * value)) : list string :=
      match ps with
      | [] => []
      | (k, x) :: ps' =>
          match serialize gap (indent +:+ gap) x with
          | Some str =>
              (quote k +:+ ":" +:+ (if String.eqb gap "" then "" else " ") +:+ str)
              :: members ps'
          | None => members ps'
          end
      end in
  match v with
  | VUndefined => None
  | VNull => Some "null"
  | VBool true => Some "true"
  | VBool false => Some "false"
  | VNum n => Some (pretty n)
  | VStr s => Some (quote s)
  | VObj ps => Some (braces gap indent (members ps))
  | VError _ _ ps => Some (braces gap indent (members ps))
  end.

(** [JSON.stringify(v, null, space)] *)
Definition stringify (v : value) (space : string) : option string :=
  serialize space "" v.

Definition is_space (c : ascii) : bool :=
  let n := Ascii.N_of_ascii c in
  ((n =? 32) || (n =? 9) || (n =? 10) || (n =? 13))%N.

Fixpoint skip_spaces (s : string) : string :=
  match s with
  | String c s' => if is_space c then skip_spaces s' else s
  | EmptyString => ""
  end.

Definition trim (s : string) : string :=
  String.rev (skip_spaces (String.rev (skip_spaces s))).

Definition SyntaxError (message : string) : value :=
  VError "SyntaxError" message [].

(** A partial [JSON.parse(text)]: it knows the texts [null], [true],
    [false] and [{}] and rejects every other text, other JSON texts
    included; the message of its SyntaxError is not the engine's.  It
    is applied below only to [{}] and to text that is not JSON, where
    it decides as [JSON.parse] does. *)
Definition parse (text : string) : Completion value :=
  let t := trim text in
  if String.eqb t "null" then Normal VNull
  else if String.eqb t "true" then Normal (VBool true)
  else if String.eqb t "false" then Normal (VBool false)
  else if String.eqb t "{}" then Normal (VObj [])
  else Throw (SyntaxError ("Unexpected token in JSON: " +:+ t)).

End Json.

(** * Concrete requests *)

Module Scenario.
Import Mem.

Definition settings (tok : value) (syncTime : Z) : value :=
  VObj [("gistToken", tok); ("syncTime", VNum syncTime)].

(** A local store holding [settings] and an empty state document. *)
Definition store (node : bool) (s : value) : Store :=
  mkStore node
    (<["settings" := s]> (<["#sub-store" := VStr "{}"]> ∅))
    (VObj []) (VObj []).

Definition world (a : Store) (r : Service) : World Store Service :=
  mkWorld a r [] [].

Definition backup_key : string * string :=
  ("Auto Generated Sub-Store Backup", "Sub-Store").

(** A remote service that is reachable and holds no backup yet. *)
Definition empty_service : Service := mkService ∅ [].

(** A remote service whose next call is rejected. *)
Definition failing_service (e : value) : Service := mkService ∅ [Some e].

(** A remote service holding [text] as the backup. *)
Definition service_with (text : string) : Service :=
  mkService (<[backup_key := VStr text]> ∅) [].

Definition token : value := VStr "ghp_0123456789".

(** The upstream service rejects the token. *)
Definition rejected : value := VStr "ERROR: Bad credentials".

(** A configured instance that last synchronised at 1690000000000. *)
Definition configured (node : bool) (r : Service) : World Store Service :=
  world (store node (settings token 1690000000000)) r.

(** The same with a [syncTime] ahead of the clock, as a restore from a
    backup taken on another machine can leave it. *)
Definition ahead : World Store Service :=
  world (store false (settings token 1800000000000)) empty_service.

(** No [gistToken] in the settings. *)
Definition unconfigured : World Store Service :=
  world (store false (VObj [("syncTime", VNum 1690000000000)])) empty_service.

(** An empty [gistToken]. *)
Definition blank_token : World Store Service :=
  world (store false (settings (VStr "") 1690000000000)) empty_service.

(** The Node variant facing a backup file that is not JSON. *)
Definition garbled : World Store Service :=
  configured true (service_with "<html>").

End Scenario.

(** * The other handlers of the file

    [getEnv], [refresh], [getNodeInfo] and the two handlers of
    [/api/storage] that [serve] registers.  What they import from
    other modules enters as parameters. *)

(** [new NetworkError(code, message, details)] *)
Definition NetworkError (c m d : string) : ApiError :=
  mkApiError Network c m (Some d).

(** [new Error(message)]: an undefined message leaves the message
    empty, any other is converted to a string. *)
Definition new_Error (msg : value) : value :=
  VError "Error"
    (match msg with
     | VUndefined => ""
     | _ => ToString msg
     end)
    [].

(** Removal of a property from a property list. *)
Fixpoint remove_prop (k : string) (ps : list (string * value))
  : list (string * value) :=
  match ps with
  | [] => []
  | (k', v) :: ps' =>
      if String.eqb k' k then remove_prop k ps' else (k', v) :: remove_prop k ps'
  end.

(** [delete o.k] on a value that has properties; on a primitive it
    does nothing. *)
Definition delete_member (k : string) (o : value) : value :=
  match o with
  | VObj ps => VObj (remove_prop k ps)
  | VError name message ps => VError name message (remove_prop k ps)
  | _ => o
  end.

(** What [ENV()] of [@/vendor/open-api] returns. *)
Record Flags : Type := mkFlags {
  flag_isNode : value;
  flag_isQX : value;
  flag_isLoon : value;
  flag_isSurge : value;
  flag_isStash : value;
  flag_isShadowRocket : value;
}.

(** The request as the handlers read it: [req.body] and [req.query]. *)
Record Request : Type := mkRequest {
  req_body : value;
  req_query : value;
}.

(** What the other handlers import: the platform flags and the version
    of [package.json]; the two updates of [./settings] and the
    revocation of [@/utils/resource-cache], which act on the local
    state and may throw; the share-link producer, the HTTP client and
    the URI encoder used by the node lookup. *)
Class Services (St : Type) : Type := {
  ENV : Flags;
  substoreVersion : value;
  updateGitHubAvatar : St -> Completion unit * St;
  updateArtifactStore : St -> Completion unit * St;
  revokeAll : St -> Completion unit * St;
  produce : value -> Completion value;
  http_get : value -> Completion value;
  encodeURIComponent : value -> Completion string;
}.

Section OtherHandlers.

Context {St R : Type} {LS : LocalStateStore St} {HO : Host St}
  {SV : Services St}.

Notation "x <- m ;; k" := (bind m (fun x => k))
  (at level 100, m at next level, k at level 200, right associativity).
Notation "m ;; k" := (bind m (fun _ => k))
  (at level 100, k at level 200, right associativity).

(** [success(res, data)] *)
Definition success_with (data : value) : M St R unit :=
  respond (Success (Some data)).

(** A call to a collaborator that acts on the local state. *)
Definition call (f : St -> Completion unit * St) : M St R unit :=
  fun w =>
    let '(r, a) := f (app w) in
    (r, mkWorld a (remote w) (trace w) (sent w)).

(** The name [getEnv] gives to the platform: each flag that is set
    overwrites the name chosen so far. *)
Definition backend_name (f : Flags) : string :=
  let backend := "Node" in
  let backend := if truthy (flag_isNode f) then "Node" else backend in
  let backend := if truthy (flag_isQX f) then "QX" else backend in
  let backend := if truthy (flag_isLoon f) then "Loon" else backend in
  let backend := if truthy (flag_isSurge f) then "Surge" else backend in
  let backend := if truthy (flag_isStash f) then "Stash" else backend in
  let backend :=
    if truthy (flag_isShadowRocket f) then "ShadowRocket" else backend in
  backend.

(** [function getEnv(req, res)] *)
Definition getEnv : M St R unit :=
  success_with
    (VObj [("backend", VStr (backend_name ENV)); ("version", substoreVersion)]).

(** [async function refresh(_, res)] *)
Definition refresh : M St R unit :=
  (* 1. get GitHub avatar and artifact store *)
  call updateGitHubAvatar ;;
  call updateArtifactStore ;;
  (* 2. clear resource cache *)
  call revokeAll ;;
  success.

(** The options of the lookup request. *)
Definition lookup_options (server : string) (lang : value) : value :=
  VObj
    [("url",
      VStr ("http://ip-api.com/json/" +:+ server +:+ "?lang=" +:+ ToString lang));
     ("headers",
      VObj
        [("User-Agent",
          VStr "Mozilla/5.0 (Macintosh; Intel Mac OS X 12_4) AppleWebKit/605.1.15 (KHTML, like Gecko) Version/15.4 Safari/605.1.15")])].

(** The [.then] callback of the lookup. *)
Definition read_info (resp : value) : Completion value :=
  match member "body" resp with
  | Throw e => Throw e
  | Normal body =>
      match JSON_parse (ToString body) with
      | Throw e => Throw e
      | Normal data =>
          match member "status" data with
          | Throw e => Throw e
          | Normal status =>
              if negb (strict_eq_str status "success") then
                match member "message" data with
                | Throw e => Throw e
                | Normal msg => Throw (new_Error msg)
                end
              else
                (* remove unnecessary fields *)
                Normal (delete_member "status" data)
          end
      end
  end.

(** The awaited expression of the second [try] block. *)
Definition lookup_info (proxy lang : value) : Completion value :=
  match member "server" proxy with
  | Throw e => Throw e
  | Normal server =>
      match encodeURIComponent server with
      | Throw e => Throw e
      | Normal encoded =>
          match http_get (lookup_options encoded lang) with
          | Throw e => Throw e
          | Normal resp => read_info resp
          end
      end
  end.

(** [req.query.lang || 'zh-CN'] *)
Definition lang_or_default (l : value) : value :=
  if truthy l then l else VStr "zh-CN".

(** The reply of the [catch] clause of [getNodeInfo]. *)
Definition node_info_failed (err : value) : Response :=
  Failed (NetworkError "FAILED_TO_GET_NODE_INFO" "Failed to get node info"
            ("Reason: " +:+ ToString err)).

(** The reply of [getNodeInfo] once the language is read. *)
Definition node_info_reply (proxy lang : value) : Response :=
  let shareUrl :=
    match produce proxy with
    | Normal u => u
    | Throw _ => VUndefined
    end in
  match lookup_info proxy lang with
  | Normal info => Success (Some (VObj [("shareUrl", shareUrl); ("info", info)]))
  | Throw err => node_info_failed err
  end.

(** [async function getNodeInfo(req, res)] *)
Definition getNodeInfo (req : Request) : M St R unit :=
  let proxy := req_body req in
  l <- eval (member "lang" (req_query req)) ;;
  let lang := lang_or_default l in
  shareUrl <- try_catch (eval (produce proxy))
                (fun _ => (* do nothing *) ret VUndefined) ;;
  try_catch
    (info <- eval (lookup_info proxy lang) ;;
     success_with (VObj [("shareUrl", shareUrl); ("info", info)]))
    (fun err => respond (node_info_failed err)).

(** [GET /api/storage]: the value handed to [res.json]. *)
Definition storage_get (a : St) : value := read "#sub-store" a.

(** [JSON.stringify(data)] as a value. *)
Definition stringify_body (data : value) : value :=
  match JSON_stringify data "" with
  | Some s => VStr s
  | None => VUndefined
  end.

(** [POST /api/storage] with body [data]: the store it leaves. *)
Definition storage_post (data : value) (a : St) : St :=
  write (stringify_body data) "#sub-store" a.

(** The replies a handler adds to the world. *)
Definition answers (h : M St R unit) (w : World St R) : list Response :=
  drop (length (sent w)) (sent (h w).2).

End OtherHandlers.

(** Services for the in-memory store: updates that stamp a key of the
    store, a producer and a lookup service given by tables. *)
Module MemServices.
Import Mem.

Definition stamp (k : string) (s : Store) : Completion unit * Store :=
  (Normal tt, store_write (VBool true) k s).

(** A producer that knows proxies with a [name]. *)
Definition produce_uri (proxy : value) : Completion value :=
  match member "name" proxy with
  | Normal (VStr n) => Normal (VStr ("ss://" +:+ n))
  | Normal _ => Throw (TypeError "unsupported proxy")
  | Throw e => Throw e
  end.

(** The two answers of the lookup service. *)
Definition found : value :=
  VObj [("status", VStr "success"); ("country", VStr "Australia");
        ("query", VStr "1.1.1.1")].

Definition not_found : value :=
  VObj [("status", VStr "fail"); ("message", VStr "invalid query")].

Definition text_of (v : value) : string := default "" (Json.stringify v "").

(** A lookup service that answers for two addresses. *)
Definition lookup_service (options : value) : Completion value :=
  match member "url" options with
  | Normal (VStr url) =>
      if String.eqb url "http://ip-api.com/json/1.1.1.1?lang=zh-CN"
      then Normal (VObj [("body", VStr (text_of found))])
      else if String.eqb url "http://ip-api.com/json/example.invalid?lang=zh-CN"
      then Normal (VObj [("body", VStr (text_of not_found))])
      else Throw (VStr "timeout")
  | Normal _ => Throw (VStr "timeout")
  | Throw e => Throw e
  end.

(** [encodeURIComponent] on the strings it leaves unchanged (letters,
    digits and [- _ . ! ~ * ' ( )]), which are the ones used below. *)
Definition encode (v : value) : Completion string := Normal (ToString v).

(** [JSON.parse] on the two answers, and on the texts of [Json.parse]. *)
Definition parse_answer (text : string) : Completion value :=
  if String.eqb text (text_of found) then Normal found
  else if String.eqb text (text_of not_found) then Normal not_found
  else Json.parse text.

Definition services : Services Store := {|
  ENV := mkFlags (VBool false) (VBool false) (VBool false) (VBool true)
           (VBool false) (VBool true);
  substoreVersion := VStr "2.0.0";
  updateGitHubAvatar := stamp "avatar";
  updateArtifactStore := stamp "artifacts";
  revokeAll := stamp "revoked";
  produce := produce_uri;
  http_get := lookup_service;
  encodeURIComponent := encode;
|}.

(** A host for the lookups, and a host whose migration throws. *)
Definition host (parse : string -> Completion value)
    (migration : Store -> Completion unit * Store) : Host Store := {|
  SETTINGS_KEY := "settings";
  GIST_BACKUP_KEY := "Auto Generated Sub-Store Backup";
  GIST_BACKUP_FILE_NAME := "Sub-Store";
  JSON_stringify := Json.stringify;
  JSON_parse := parse;
  clock := fun n => 1700000000000 + Z.of_nat n;
  migrate := migration;
|}.

Definition lookup_host : Host Store :=
  host parse_answer (fun s => (Normal tt, s)).

Definition outdated : value := VStr "unknown schema version".

Definition failing_migration_host : Host Store :=
  host Json.parse (fun s => (Throw outdated, s)).

(** Requests for a node lookup: a proxy that is found, one that is not,
    one the producer does not know. *)
Definition named (server : string) : value :=
  VObj [("name", VStr "tokyo"); ("server", VStr server)].

Definition lookup_request (proxy : value) : Request :=
  mkRequest proxy (VObj []).

End MemServices.

(** A Node instance whose cache holds one subscription, facing a
    remote service that is reachable and holds no backup yet; the
    state document on disk is older than the cache. *)
Module Snapshot.
Import Mem.

Definition state : value :=
  VObj [("settings",
         VObj [("gistToken", VStr "ghp_0123456789");
               ("syncTime", VNum 1690000000000)]);
        ("subs",
         VObj [("home", VObj [("url", VStr "https://example.org/sub")])])].

(** [JSON.stringify(state, null, `  `)] *)
Definition state_text : string := default "" (Json.stringify state "  ").

Definition node_store : Store :=
  mkStore true
    (<["settings" := VObj [("gistToken", VStr "ghp_0123456789");
                           ("syncTime", VNum 1690000000000)]]>
       (<["#sub-store" := VStr "{}"]> ∅))
    state (VObj []).

Definition node_world : World Store Service :=
  mkWorld node_store (mkService ∅ []) [] [].

(** [JSON.parse] on the text of [state], and on the texts of
    [Json.parse]. *)
Definition parse_state (text : string) : Completion value :=
  if String.eqb text state_text then Normal state else Json.parse text.

End Snapshot.

(** * Instances of the interfaces *)

Module Instances.
Import Mem.

Lemma store_read_write (data : value) (k : string) (s : Store) :
  store_read k (store_write data k s) = data.
Proof.
  unfold store_read, store_write; simpl.
  by rewrite lookup_insert_eq.
Qed.

Lemma service_download_upload (g : Gist) (file : string) (content : value)
    (r r1 : Service) (d : string) (r2 : Service) :
  service_upload g file content r = (Normal tt, r1) ->
  service_download g file r1 = (Normal d, r2) ->
  VStr d = content.
Proof.
  unfold service_upload, service_download, service_fetch.
  intros Hup Hdown.
  assert (Hfile : files r1 !! (key g, file) = Some content /\ faults r1 = []
                  \/ files r1 !! (key g, file) = Some content).
  { destruct (faults r) as [|[e|] rest]; inversion Hup; subst; simpl;
      rewrite lookup_insert_eq; auto. }
  assert (Hlook : files r1 !! (key g, file) = Some content) by tauto.
  clear Hfile Hup.
  destruct (faults r1) as [|[e|] rest]; simpl in Hdown;
    try rewrite Hlook in Hdown;
    try discriminate;
    destruct content; congruence.
Qed.

#[export] Instance mem_store : LocalStateStore Store := {|
  read := store_read;
  write := store_write;
  env_isNode := isNode;
  cache := mem_cache;
  set_cache := store_set_cache;
  persistCache := store_persistCache;
  read_write := store_read_write;
|}.

#[export] Instance mem_service : RemoteBackupClient Service := {|
  upload := service_upload;
  download := service_download;
  download_upload := service_download_upload;
|}.

(** A host whose migration leaves the store alone and whose clock
    advances by one millisecond per call. *)
#[export] Instance mem_host : Host Store := {|
  SETTINGS_KEY := "settings";
  GIST_BACKUP_KEY := "Auto Generated Sub-Store Backup";
  GIST_BACKUP_FILE_NAME := "Sub-Store";
  JSON_stringify := Json.stringify;
  JSON_parse := Json.parse;
  clock := fun n => 1700000000000 + Z.of_nat n;
  migrate := fun s => (Normal tt, s);
|}.

End Instances.
Export Instances.

(** * Properties of property lists and objects *)

Section Objects.

Lemma lookup_assign_prop (k : string) (v : value) (ps : list (string * value)) :
  lookup_prop k (assign_prop k v ps) = Some v.
Proof.
  induction ps as [|[k' v'] ps IH]; simpl.
  - by rewrite String.eqb_refl.
  - destruct (String.eqb k' k) eqn:E; simpl.
    + by rewrite String.eqb_refl.
    + by rewrite E.
Qed.

Lemma lookup_assign_prop_ne (k k' : string) (v : value)
    (ps : list (string * value)) :
  k' <> k -> lookup_prop k' (assign_prop k v ps) = lookup_prop k' ps.
Proof.
  intros Hne.
  induction ps as [|[k0 v0] ps IH]; simpl.
  - destruct (String.eqb k k') eqn:E; [|done].
    apply String.eqb_eq in E. congruence.
  - destruct (String.eqb k0 k) eqn:E; simpl.
    + apply String.eqb_eq in E. subst k0.
      destruct (String.eqb k k') eqn:E'; [|done].
      apply String.eqb_eq in E'. congruence.
    + by rewrite IH.
Qed.

(** A value with a truthy property is an object. *)
Lemma member_truthy_object (k : string) (o tok : value) :
  member k o = Normal tok -> truthy tok = true -> is_object o = true.
Proof.
  destruct o; simpl; intros Hm Ht; try done;
    inversion Hm; subst; discriminate.
Qed.

Lemma member_object (k : string) (o : value) :
  is_object o = true -> exists v, member k o = Normal v.
Proof. destruct o; simpl; intros Ho; try discriminate; eauto. Qed.

Lemma assign_object (k : string) (v o : value) :
  is_object o = true ->
  exists o', assign k v o = Normal o' /\ is_object o' = true.
Proof. destruct o; simpl; intros Ho; try discriminate; eauto. Qed.

(** Reading back the property just assigned. *)
Lemma member_assign (k : string) (v o o' : value) :
  assign k v o = Normal o' -> member k o' = Normal v.
Proof.
  destruct o; simpl; intros Ha; inversion Ha; subst; simpl;
    by rewrite lookup_assign_prop.
Qed.

(** Assigning one property leaves the others alone. *)
Lemma member_assign_ne (k k' : string) (v o o' : value) :
  k' <> k -> assign k v o = Normal o' -> member k' o' = member k' o.
Proof.
  intros Hne.
  destruct o; simpl; intros Ha; inversion Ha; subst; simpl;
    by rewrite lookup_assign_prop_ne.
Qed.

(** The falsy values of the fragment. *)
Lemma falsy_values (v : value) :
  truthy v = false <->
  v = VUndefined \/ v = VNull \/ v = VBool false \/ v = VNum 0 \/ v = VStr "".
Proof.
  split.
  - destruct v as [| |[]|n|s| |]; simpl; intros Hv; try discriminate; auto.
    + apply negb_false_iff, Z.eqb_eq in Hv. subst; auto.
    + apply negb_false_iff, String.eqb_eq in Hv. subst; auto 6.
  - intros [->|[->|[->|[->| ->]]]]; reflexivity.
Qed.

End Objects.

(** * The paths through the handler *)

Section Paths.

Context {St R : Type} `{LocalStateStore St} `{RemoteBackupClient R} `{Host St}.

Implicit Types (w : World St R) (action tok : value).

Ltac run :=
  unfold gistBackup, bind, try_catch, app_read, app_write, app_set_cache,
    app_persistCache, app_info, emit, get_app, update_app, eval, ret, throw,
    Date_getTime, success, failed, respond, gist_upload, gist_download,
    run_migrate;
  simpl.

Ltac tidy := rewrite <- ?app_assoc; simpl.

Ltac clock_index w :=
  rewrite !length_app; simpl;
  replace (length (trace w) + 1 + 1)%nat with (length (trace w) + 2)%nat by lia.

(** Without a credential the handler replies at once. *)
Lemma gistBackup_gate action w tok :
  gistToken_of (app w) = Normal tok -> truthy tok = false ->
  gistBackup action w =
    (Normal tt,
     mkWorld (app w) (remote w) (trace w ++ [ERead SETTINGS_KEY])
       (sent w ++ [token_not_found])).
Proof.
  unfold gistToken_of, settings_of. intros Htok Hfalsy.
  run. rewrite Htok; simpl. by rewrite Hfalsy.
Qed.

(** An action that matches no [case]. *)
Lemma gistBackup_other action w tok :
  gistToken_of (app w) = Normal tok -> truthy tok = true ->
  strict_eq_str action "upload" = false ->
  strict_eq_str action "download" = false ->
  gistBackup action w =
    (Normal tt,
     mkWorld (app w) (remote w)
       (trace w ++ [ERead SETTINGS_KEY; ERead SETTINGS_KEY])
       (sent w ++ [Success None])).
Proof.
  unfold gistToken_of, settings_of. intros Htok Htruthy Hup Hdown.
  destruct (member_object "syncTime" (read SETTINGS_KEY (app w))) as [u Hu].
  { eapply member_truthy_object; eauto. }
  run. rewrite Htok; simpl. rewrite Htruthy; simpl.
  rewrite Hu; simpl. rewrite Hup, Hdown; simpl. by tidy.
Qed.

Lemma gistBackup_upload_ok w tok r1 :
  gistToken_of (app w) = Normal tok -> truthy tok = true ->
  upload (mkGist tok GIST_BACKUP_KEY) GIST_BACKUP_FILE_NAME
    (backup_blob (length (trace w)) (app w)) (remote w) = (Normal tt, r1) ->
  gistBackup (VStr "upload") w =
    (Normal tt,
     mkWorld (stamped (length (trace w)) (app w)) r1
       (trace w ++ upload_prefix (length (trace w)) (app w)
          ++ [EUpload GIST_BACKUP_FILE_NAME
                (backup_blob (length (trace w)) (app w)) (Normal tt)])
       (sent w ++ [Success None])).
Proof.
  unfold gistToken_of, settings_of. intros Htok Htruthy.
  pose proof (member_truthy_object _ _ _ Htok Htruthy) as Hobj.
  destruct (member_object "syncTime" _ Hobj) as [u Hu].
  unfold upload_prefix, backup_blob, stamped, stamped_settings, settings_of.
  destruct (assign_object "syncTime"
              (VNum (clock (length (trace w) + 2))) _ Hobj) as (s1 & Hs1 & _).
  rewrite Hs1. intros Hup.
  run. rewrite Htok; simpl. rewrite Htruthy; simpl. rewrite Hu; simpl.
  clock_index w. rewrite Hs1; simpl.
  destruct (env_isNode (write s1 SETTINGS_KEY (app w))); simpl;
    rewrite Hup; simpl; by tidy.
Qed.

Lemma gistBackup_upload_failed w tok e r1 :
  gistToken_of (app w) = Normal tok -> truthy tok = true ->
  upload (mkGist tok GIST_BACKUP_KEY) GIST_BACKUP_FILE_NAME
    (backup_blob (length (trace w)) (app w)) (remote w) = (Throw e, r1) ->
  gistBackup (VStr "upload") w =
    (Normal tt,
     mkWorld
       (write (rolled_back_settings (length (trace w)) (app w)) SETTINGS_KEY
          (stamped (length (trace w)) (app w)))
       r1
       (trace w ++ upload_prefix (length (trace w)) (app w)
          ++ [EUpload GIST_BACKUP_FILE_NAME
                (backup_blob (length (trace w)) (app w)) (Throw e);
              EWrite (rolled_back_settings (length (trace w)) (app w))
                SETTINGS_KEY])
       (sent w ++ [backup_failed (VStr "upload") e])).
Proof.
  unfold gistToken_of, settings_of. intros Htok Htruthy.
  pose proof (member_truthy_object _ _ _ Htok Htruthy) as Hobj.
  destruct (member_object "syncTime" _ Hobj) as [u Hu].
  unfold upload_prefix, backup_blob, rolled_back_settings, syncTime_of,
    stamped, stamped_settings, settings_of.
  destruct (assign_object "syncTime"
              (VNum (clock (length (trace w) + 2))) _ Hobj) as (s1 & Hs1 & Hobj1).
  destruct (assign_object "syncTime" u _ Hobj1) as (s2 & Hs2 & _).
  rewrite Hs1, Hu, Hs2. intros Hup.
  run. rewrite Htok; simpl. rewrite Htruthy; simpl. rewrite Hu; simpl.
  clock_index w. rewrite Hs1; simpl.
  destruct (env_isNode (write s1 SETTINGS_KEY (app w))); simpl;
    rewrite Hup; simpl; rewrite Hs2; simpl; by tidy.
Qed.

Lemma gistBackup_download_failed w tok e r1 :
  gistToken_of (app w) = Normal tok -> truthy tok = true ->
  download (mkGist tok GIST_BACKUP_KEY) GIST_BACKUP_FILE_NAME (remote w)
    = (Throw e, r1) ->
  gistBackup (VStr "download") w =
    (Normal tt,
     mkWorld (app w) r1
       (trace w ++ download_prefix
          ++ [EDownload GIST_BACKUP_FILE_NAME (Throw e)])
       (sent w ++ [backup_failed (VStr "download") e])).
Proof.
  unfold gistToken_of, settings_of, download_prefix. intros Htok Htruthy Hdown.
  pose proof (member_truthy_object _ _ _ Htok Htruthy) as Hobj.
  destruct (member_object "syncTime" _ Hobj) as [u Hu].
  run. rewrite Htok; simpl. rewrite Htruthy; simpl. rewrite Hu; simpl.
  rewrite Hdown; simpl. by tidy.
Qed.

Lemma gistBackup_download_unparsed w tok d r1 e :
  gistToken_of (app w) = Normal tok -> truthy tok = true ->
  download (mkGist tok GIST_BACKUP_KEY) GIST_BACKUP_FILE_NAME (remote w)
    = (Normal d, r1) ->
  restored d (app w) = Throw e ->
  gistBackup (VStr "download") w =
    (Normal tt,
     mkWorld (write (VStr d) "#sub-store" (app w)) r1
       (trace w ++ download_prefix
          ++ [EDownload GIST_BACKUP_FILE_NAME (Normal d);
              EWrite (VStr d) "#sub-store"])
       (sent w ++ [backup_failed (VStr "download") e])).
Proof.
  unfold gistToken_of, settings_of, download_prefix, restored.
  intros Htok Htruthy Hdown Hres.
  pose proof (member_truthy_object _ _ _ Htok Htruthy) as Hobj.
  destruct (member_object "syncTime" _ Hobj) as [u Hu].
  run. rewrite Htok; simpl. rewrite Htruthy; simpl. rewrite Hu; simpl.
  rewrite Hdown; simpl.
  destruct (env_isNode (write (VStr d) "#sub-store" (app w))); [|discriminate].
  destruct (JSON_parse d) as [parsed|e']; [discriminate|].
  inversion Hres; subst. simpl. by tidy.
Qed.

Lemma gistBackup_download_restored w tok d r1 a2 m a3 :
  gistToken_of (app w) = Normal tok -> truthy tok = true ->
  download (mkGist tok GIST_BACKUP_KEY) GIST_BACKUP_FILE_NAME (remote w)
    = (Normal d, r1) ->
  restored d (app w) = Normal a2 ->
  migrate a2 = (m, a3) ->
  gistBackup (VStr "download") w =
    (Normal tt,
     mkWorld a3 r1
       (trace w ++ download_prefix
          ++ EDownload GIST_BACKUP_FILE_NAME (Normal d)
          :: restore_calls d (app w) ++ [EMigrate m])
       (sent w ++ [migrated_reply m])).
Proof.
  unfold gistToken_of, settings_of, download_prefix, restored, restore_calls.
  intros Htok Htruthy Hdown Hres Hmig.
  pose proof (member_truthy_object _ _ _ Htok Htruthy) as Hobj.
  destruct (member_object "syncTime" _ Hobj) as [u Hu].
  run. rewrite Htok; simpl. rewrite Htruthy; simpl. rewrite Hu; simpl.
  rewrite Hdown; simpl.
  destruct (env_isNode (write (VStr d) "#sub-store" (app w))); simpl.
  - destruct (JSON_parse d) as [parsed|e']; [|discriminate].
    inversion Hres; subst. simpl. rewrite Hmig.
    destruct m as [[]|e]; simpl; by tidy.
  - inversion Hres; subst. rewrite Hmig.
    destruct m as [[]|e]; simpl; by tidy.
Qed.

End Paths.

(** * Every request follows a path *)

Section PathRelation.

Context {St R : Type} `{LocalStateStore St} `{RemoteBackupClient R} `{Host St}.

Implicit Types (w : World St R) (action tok : value).

Lemma strict_eq_str_true action lit :
  strict_eq_str action lit = true <-> action = VStr lit.
Proof.
  destruct action; simpl; try (split; [discriminate|congruence]).
  rewrite String.eqb_eq. split; congruence.
Qed.

Lemma strict_eq_str_false action lit :
  strict_eq_str action lit = false <-> action <> VStr lit.
Proof.
  rewrite <- strict_eq_str_true. destruct (strict_eq_str action lit); split;
    congruence.
Qed.

Lemma gistBackup_unreadable action w e :
  gistToken_of (app w) = Throw e ->
  gistBackup action w =
    (Throw e,
     mkWorld (app w) (remote w) (trace w ++ [ERead SETTINGS_KEY]) (sent w)).
Proof.
  unfold gistToken_of, settings_of. intros Htok.
  unfold gistBackup, bind, app_read, emit, get_app, eval; simpl.
  by rewrite Htok.
Qed.

(** The handler is total and follows one of the paths. *)
Lemma gistBackup_path action w : path action w (gistBackup action w).
Proof.
  destruct (gistToken_of (app w)) as [tok|e] eqn:Htok.
  2: { rewrite (gistBackup_unreadable _ _ _ Htok). by constructor. }
  destruct (truthy tok) eqn:Htruthy.
  2: { rewrite (gistBackup_gate _ _ _ Htok Htruthy). by econstructor. }
  destruct (strict_eq_str action "upload") eqn:Hup.
  { apply strict_eq_str_true in Hup. subst action.
    destruct (upload (mkGist tok GIST_BACKUP_KEY) GIST_BACKUP_FILE_NAME
                (backup_blob (length (trace w)) (app w)) (remote w))
      as [[[]|e] r1] eqn:Hcall.
    - rewrite (gistBackup_upload_ok _ _ _ Htok Htruthy Hcall).
      by eapply path_upload_ok.
    - rewrite (gistBackup_upload_failed _ _ _ _ Htok Htruthy Hcall).
      by eapply path_upload_failed. }
  destruct (strict_eq_str action "download") eqn:Hdown.
  { apply strict_eq_str_true in Hdown. subst action.
    destruct (download (mkGist tok GIST_BACKUP_KEY) GIST_BACKUP_FILE_NAME
                (remote w)) as [[d|e] r1] eqn:Hcall.
    - destruct (restored d (app w)) as [a2|e] eqn:Hres.
      + destruct (migrate a2) as [m a3] eqn:Hmig.
        rewrite (gistBackup_download_restored _ _ _ _ _ _ _
                   Htok Htruthy Hcall Hres Hmig).
        by eapply path_download_restored.
      + rewrite (gistBackup_download_unparsed _ _ _ _ _
                   Htok Htruthy Hcall Hres).
        by eapply path_download_unparsed.
    - rewrite (gistBackup_download_failed _ _ _ _ Htok Htruthy Hcall).
      by eapply path_download_failed. }
  rewrite (gistBackup_other _ _ _ Htok Htruthy Hup Hdown).
  apply strict_eq_str_false in Hup, Hdown.
  by eapply path_other.
Qed.

End PathRelation.

(** * Proofs *)

Section Claims.

Context {St R : Type} `{LocalStateStore St} `{RemoteBackupClient R} `{Host St}.

Implicit Types (w : World St R) (action tok : value) (a : St).

(** Case analysis on the path of a request; the observations of the
    request are computed in each case. *)
Ltac paths action w :=
  unfold calls, replies, settles, after;
  destruct (gistBackup_path action w);
  cbn [fst snd app remote trace sent];
  rewrite ?drop_app_length, ?drop_all.

(** An event hypothesis on a concrete list of calls. *)
Ltac event_cases H :=
  unfold upload_prefix, download_prefix, restore_calls in H; simpl in H;
  repeat match type of H with
         | context [if ?b then _ else _] => destruct b eqn:?; simpl in H
         | context [match ?c with Normal _ => _ | Throw _ => _ end] =>
             destruct c eqn:?; simpl in H
         | _ \/ _ => destruct H as [H|H]
         | False => destruct H
         end.

Lemma settings_of_write (s : value) a :
  settings_of (write s SETTINGS_KEY a) = s.
Proof. apply read_write. Qed.

Lemma credential_is_object a :
  credential_configured a -> is_object (settings_of a) = true.
Proof. intros (tok & Htok & Htruthy). eapply member_truthy_object; eauto. Qed.

Lemma stamped_syncTime (n : nat) a :
  is_object (settings_of a) = true ->
  member "syncTime" (stamped_settings n a) = Normal (VNum (clock (n + 2))).
Proof.
  intros Hobj. unfold stamped_settings.
  destruct (assign_object "syncTime" (VNum (clock (n + 2))) _ Hobj)
    as (s & Hs & _).
  rewrite Hs. eapply member_assign; eauto.
Qed.

Lemma stamped_is_object (n : nat) a :
  is_object (settings_of a) = true ->
  is_object (stamped_settings n a) = true.
Proof.
  intros Hobj. unfold stamped_settings.
  destruct (assign_object "syncTime" (VNum (clock (n + 2))) _ Hobj)
    as (s & Hs & Hobj').
  by rewrite Hs.
Qed.

Lemma stamped_gistToken (n : nat) a :
  is_object (settings_of a) = true ->
  gistToken_of (stamped n a) = gistToken_of a.
Proof.
  intros Hobj. unfold gistToken_of, stamped.
  rewrite settings_of_write. unfold stamped_settings.
  destruct (assign_object "syncTime" (VNum (clock (n + 2))) _ Hobj)
    as (s & Hs & _).
  rewrite Hs. eapply member_assign_ne; eauto. discriminate.
Qed.

Lemma rolled_back_syncTime (n : nat) a :
  is_object (settings_of a) = true ->
  member "syncTime" (rolled_back_settings n a) = syncTime_of a.
Proof.
  intros Hobj. unfold rolled_back_settings, syncTime_of.
  destruct (member_object "syncTime" _ Hobj) as [u Hu].
  unfold syncTime_of in *. rewrite Hu.
  destruct (assign_object "syncTime" u _ (stamped_is_object n a Hobj))
    as (s & Hs & _).
  rewrite Hs. eapply member_assign; eauto.
Qed.

(** C5 (credential gate).  When the settings record holds no
    credential, the request fails with the request-invalid error of
    code GIST_TOKEN_NOT_FOUND whatever the action is; the local store,
    and so the settings, and the remote service are what they were, and
    the only call made is the read of the settings: no write and no
    network call. *)
Theorem credential_gate action w :
  credential_missing (app w) ->
  (exists err,
      replies action w = [Failed err]
      /\ type err = RequestInvalid
      /\ code err = "GIST_TOKEN_NOT_FOUND")
  /\ app (after action w) = app w
  /\ settings_of (app (after action w)) = settings_of (app w)
  /\ remote (after action w) = remote w
  /\ calls action w = [ERead SETTINGS_KEY]
  /\ count is_write (calls action w) = 0%nat
  /\ count is_network_call (calls action w) = 0%nat.
Proof.
  intros (tok & Htok & Hfalsy).
  paths action w; try congruence.
  repeat split; try reflexivity.
  eexists; repeat split; reflexivity.
Qed.

(** C10 (truthiness of the credential).  A stored [gistToken] that is
    falsy (the empty string, and also undefined, null, false or 0) is
    treated exactly as a settings record without [gistToken]: the two
    requests settle the same way, make the same calls and send the
    same reply, which is the GIST_TOKEN_NOT_FOUND failure, sent after
    the single read of the settings with nothing written and nothing
    sent to the remote service. *)
Theorem falsy_token_is_no_token action w w0 tok :
  gistToken_of (app w) = Normal tok ->
  truthy tok = false ->
  gistToken_of (app w0) = Normal VUndefined ->
  settles action w = settles action w0
  /\ calls action w = calls action w0
  /\ replies action w = replies action w0
  /\ replies action w = [token_not_found]
  /\ calls action w = [ERead SETTINGS_KEY]
  /\ app (after action w) = app w
  /\ remote (after action w) = remote w.
Proof.
  intros Htok Hfalsy Habsent.
  unfold calls, replies, settles, after.
  rewrite (gistBackup_gate action w tok Htok Hfalsy).
  rewrite (gistBackup_gate action w0 VUndefined Habsent eq_refl).
  simpl. rewrite !drop_app_length. repeat split; reflexivity.
Qed.

(** C4, amended (unknown action).  With a credential configured and an
    action other than upload and download, the request replies
    success; it writes nothing, the local store and the remote service
    are what they were, and no network call is made.  The store is
    called, though: the settings are read twice, and these are the
    only calls. *)
Theorem unknown_action_reads_only action w :
  credential_configured (app w) ->
  action <> VStr "upload" -> action <> VStr "download" ->
  replies action w = [Success None]
  /\ app (after action w) = app w
  /\ remote (after action w) = remote w
  /\ calls action w = [ERead SETTINGS_KEY; ERead SETTINGS_KEY]
  /\ count is_write (calls action w) = 0%nat
  /\ count is_network_call (calls action w) = 0%nat
  /\ count is_store_call (calls action w) = 2%nat.
Proof.
  intros (tok & Htok & Htruthy) Hup Hdown.
  paths action w; try congruence.
  repeat split; reflexivity.
Qed.

(** C7 (download failure is non-destructive).  When the remote
    download call fails, the local store, and so the settings, are
    what they were before the request: nothing is written and the
    migration is not run; the reply is the BACKUP_FAILED failure
    carrying the thrown value. *)
Theorem download_failure_leaves_store w file e :
  In (EDownload file (Throw e)) (calls (VStr "download") w) ->
  app (after (VStr "download") w) = app w
  /\ settings_of (app (after (VStr "download") w)) = settings_of (app w)
  /\ count is_write (calls (VStr "download") w) = 0%nat
  /\ count is_migrate (calls (VStr "download") w) = 0%nat
  /\ replies (VStr "download") w = [backup_failed (VStr "download") e]
  /\ exists err,
       replies (VStr "download") w = [Failed err]
       /\ code err = "BACKUP_FAILED".
Proof.
  revert file e.
  paths (VStr "download") w; intros file e0 Hin; event_cases Hin;
    try discriminate; try congruence.
  inversion Hin; subst.
  repeat split; try reflexivity.
  eexists; split; reflexivity.
Qed.

(** C1 (rollback).  When the remote upload call fails, [syncTime] in
    the stored settings is, after the request, what it was before the
    request: the last call of the request writes the settings back
    with that value.  The request replies with the BACKUP_FAILED
    failure carrying the thrown value. *)
Theorem upload_failure_rolls_back w file blob e :
  In (EUpload file blob (Throw e)) (calls (VStr "upload") w) ->
  syncTime_of (app (after (VStr "upload") w)) = syncTime_of (app w)
  /\ (exists s,
        last (calls (VStr "upload") w) = Some (EWrite s SETTINGS_KEY)
        /\ member "syncTime" s = syncTime_of (app w))
  /\ replies (VStr "upload") w = [backup_failed (VStr "upload") e]
  /\ exists err,
       replies (VStr "upload") w = [Failed err]
       /\ code err = "BACKUP_FAILED".
Proof.
  revert file blob e.
  paths (VStr "upload") w; intros file blob e0 Hin; event_cases Hin;
    try discriminate; try congruence.
  inversion Hin; subst.
  assert (Hobj : is_object (settings_of (app w)) = true)
    by (eapply member_truthy_object; eauto).
  repeat split; try reflexivity.
  - unfold syncTime_of at 1. rewrite settings_of_write.
    by apply rolled_back_syncTime.
  - eexists; split; [reflexivity|]. by apply rolled_back_syncTime.
  - eexists; split; reflexivity.
Qed.

(** C2, amended (commit).  After an upload that succeeds, [syncTime]
    is the reading of the clock taken during the attempt.  It is not
    before the start of the attempt when the clock never runs
    backwards, and it is strictly greater than the value it replaces
    whenever that value is earlier than the reading. *)
Theorem upload_commit w :
  replies (VStr "upload") w = [Success None] ->
  syncTime_of (app (after (VStr "upload") w))
    = Normal (VNum (clock (length (trace w) + 2)))
  /\ (monotone clock -> start_time w <= clock (length (trace w) + 2))
  /\ (forall p,
        syncTime_of (app w) = Normal (VNum p) ->
        p < clock (length (trace w) + 2) ->
        exists t,
          syncTime_of (app (after (VStr "upload") w)) = Normal (VNum t)
          /\ p < t).
Proof.
  paths (VStr "upload") w; intros Hok;
    try discriminate; try congruence.
  assert (Hstamp : syncTime_of (stamped (length (trace w)) (app w))
                   = Normal (VNum (clock (length (trace w) + 2)))).
  { unfold syncTime_of, stamped. rewrite settings_of_write.
    apply stamped_syncTime. eapply member_truthy_object; eauto. }
  split; [exact Hstamp|]. split.
  - intros Hmono. unfold start_time. apply Hmono. lia.
  - intros p _ Hlt. eexists; split; [exact Hstamp|exact Hlt].
Qed.

(** C8 (optimistic write).  In an upload attempt with a credential
    configured, the settings record carrying the new [syncTime] is
    written to the store before the remote upload is called: the write
    precedes the upload in the sequence of calls, the upload is the
    only network call, and the store as written answers a read of the
    settings with that record. *)
Theorem settings_persisted_before_upload w :
  credential_configured (app w) ->
  exists (pre mid rest : list event) (s blob : value) (r : Completion unit),
    calls (VStr "upload") w
      = (pre ++ EWrite s SETTINGS_KEY
             :: mid ++ EUpload GIST_BACKUP_FILE_NAME blob r :: rest)%list
    /\ member "syncTime" s = Normal (VNum (clock (length (trace w) + 2)))
    /\ count is_network_call (pre ++ EWrite s SETTINGS_KEY :: mid) = 0%nat
    /\ count is_network_call rest = 0%nat
    /\ settings_of (write s SETTINGS_KEY (app w)) = s.
Proof.
  intros Hcred. pose proof (credential_is_object _ Hcred) as Hobj.
  destruct Hcred as (tok & Htok & Htruthy).
  paths (VStr "upload") w; try discriminate; try congruence.
  - exists [ERead SETTINGS_KEY; ERead SETTINGS_KEY],
      [ERead "#sub-store"; EInfo "上传备份中..."], [],
      (stamped_settings (length (trace w)) (app w)),
      (backup_blob (length (trace w)) (app w)), (Normal tt).
    repeat split; try reflexivity.
    + by apply stamped_syncTime.
    + apply settings_of_write.
  - exists [ERead SETTINGS_KEY; ERead SETTINGS_KEY],
      [ERead "#sub-store"; EInfo "上传备份中..."],
      [EWrite (rolled_back_settings (length (trace w)) (app w)) SETTINGS_KEY],
      (stamped_settings (length (trace w)) (app w)),
      (backup_blob (length (trace w)) (app w)), (Throw e).
    repeat split; try reflexivity.
    + by apply stamped_syncTime.
    + apply settings_of_write.
Qed.

Lemma restore_calls_shape (d : string) a :
  exists post,
    restore_calls d a = EWrite (VStr d) "#sub-store" :: post
    /\ count is_migrate post = 0%nat.
Proof.
  unfold restore_calls. eexists; split; [reflexivity|].
  destruct (env_isNode _); [|reflexivity].
  destruct (JSON_parse d); reflexivity.
Qed.

Lemma count_app (p : event -> bool) (l1 l2 : list event) :
  count p (l1 ++ l2) = (count p l1 + count p l2)%nat.
Proof. unfold count. by rewrite List.filter_app, length_app. Qed.

(** C3, amended (migration invocation).  When the remote download
    call succeeds and the store can be overwritten with the text it
    returned (outside Node always; in Node when the text parses as
    JSON), the migration is invoked exactly once, and after the write
    of that text to the local store.  When the remote download call
    fails, the migration is not invoked. *)
Theorem migration_after_restore w file r :
  In (EDownload file r) (calls (VStr "download") w) ->
  match r with
  | Normal d =>
      (exists a, restored d (app w) = Normal a) ->
      count is_migrate (calls (VStr "download") w) = 1%nat
      /\ exists (pre post : list event) (m : Completion unit),
           calls (VStr "download") w
             = (pre ++ EWrite (VStr d) "#sub-store" :: post ++ [EMigrate m])%list
           /\ count is_migrate pre = 0%nat
           /\ count is_migrate post = 0%nat
  | Throw _ => count is_migrate (calls (VStr "download") w) = 0%nat
  end.
Proof.
  revert file r.
  paths (VStr "download") w; intros file r Hin; event_cases Hin;
    try discriminate; try congruence;
    inversion Hin; subst; try reflexivity.
  all: try (intros [a' Ha']; congruence).
  all: intros _;
    destruct (restore_calls_shape d (app w)) as (post & Hshape & Hpost);
    rewrite Hshape; split.
  all: try (rewrite (count_app _ download_prefix);
            change (count is_migrate (post ++ [EMigrate m]) = 1%nat);
            rewrite count_app, Hpost; reflexivity).
  all: exists (download_prefix
                 ++ [EDownload GIST_BACKUP_FILE_NAME (Normal d)])%list,
         post, m;
    repeat split; try assumption;
    unfold download_prefix; by rewrite <- app_assoc.
Qed.

(** What a successful upload was. *)
Lemma upload_success_inv w :
  replies (VStr "upload") w = [Success None] ->
  exists tok r1,
    gistToken_of (app w) = Normal tok /\ truthy tok = true
    /\ upload (mkGist tok GIST_BACKUP_KEY) GIST_BACKUP_FILE_NAME
         (backup_blob (length (trace w)) (app w)) (remote w) = (Normal tt, r1)
    /\ gistBackup (VStr "upload") w =
         (Normal tt,
          mkWorld (stamped (length (trace w)) (app w)) r1
            (trace w ++ upload_prefix (length (trace w)) (app w)
               ++ [EUpload GIST_BACKUP_FILE_NAME
                     (backup_blob (length (trace w)) (app w)) (Normal tt)])
            (sent w ++ [Success None])).
Proof.
  paths (VStr "upload") w; intros Hok; try discriminate; try congruence.
  exists tok, r1. repeat split; assumption.
Qed.

(** What a successful download was. *)
Lemma download_success_inv w :
  replies (VStr "download") w = [Success None] ->
  exists tok d r1 a2 a3,
    gistToken_of (app w) = Normal tok /\ truthy tok = true
    /\ download (mkGist tok GIST_BACKUP_KEY) GIST_BACKUP_FILE_NAME (remote w)
         = (Normal d, r1)
    /\ restored d (app w) = Normal a2
    /\ migrate a2 = (Normal tt, a3)
    /\ gistBackup (VStr "download") w =
         (Normal tt,
          mkWorld a3 r1
            (trace w ++ download_prefix
               ++ EDownload GIST_BACKUP_FILE_NAME (Normal d)
               :: restore_calls d (app w) ++ [EMigrate (Normal tt)])
            (sent w ++ [Success None])).
Proof.
  paths (VStr "download") w; intros Hok; try discriminate; try congruence.
  destruct m as [[]|e]; [|discriminate].
  exists tok, d, r1, a2, a3. repeat split; assumption.
Qed.

(** C6 (round trip).  When an upload succeeds and the download that
    follows it succeeds, the blob [B] that was uploaded is the local
    state as the upload found it once the new [syncTime] was written:
    in Node the text [JSON.stringify] gives of [$.cache] with the
    two-space indent, elsewhere the document read under [#sub-store].
    The text downloaded is that blob, so migrating the one is
    migrating the other.  The download overwrites the local store
    with it: the state document then reads as [B] and, in Node, the
    cache is what [JSON.parse] makes of [B] and is persisted.  What
    the request leaves is the store so overwritten, migrated. *)
Theorem backup_round_trip w :
  replies (VStr "upload") w = [Success None] ->
  replies (VStr "download") (after (VStr "upload") w) = [Success None] ->
  exists (B D : string) (a : St),
    app (after (VStr "upload") w) = stamped (length (trace w)) (app w)
    /\ VStr B
       = (if env_isNode (stamped (length (trace w)) (app w))
          then match JSON_stringify
                       (cache (stamped (length (trace w)) (app w))) "  " with
               | Some text => VStr text
               | None => VUndefined
               end
          else read "#sub-store" (stamped (length (trace w)) (app w)))
    /\ In (EUpload GIST_BACKUP_FILE_NAME (VStr B) (Normal tt))
         (calls (VStr "upload") w)
    /\ In (EDownload GIST_BACKUP_FILE_NAME (Normal D))
         (calls (VStr "download") (after (VStr "upload") w))
    /\ D = B
    /\ read "#sub-store"
         (write (VStr D) "#sub-store" (app (after (VStr "upload") w)))
       = VStr B
    /\ restored D (app (after (VStr "upload") w)) = Normal a
    /\ (env_isNode (write (VStr B) "#sub-store" (app (after (VStr "upload") w)))
         = false ->
        a = write (VStr B) "#sub-store" (app (after (VStr "upload") w)))
    /\ (env_isNode (write (VStr B) "#sub-store" (app (after (VStr "upload") w)))
         = true ->
        exists parsed,
          JSON_parse B = Normal parsed
          /\ a = persistCache
                   (set_cache parsed
                      (write (VStr B) "#sub-store"
                         (app (after (VStr "upload") w)))))
    /\ migrate a
       = (Normal tt, app (after (VStr "download") (after (VStr "upload") w))).
Proof.
  intros Hup Hdown.
  destruct (upload_success_inv w Hup)
    as (tok & r1 & Htok & Htruthy & Hcall & Hrun).
  destruct (download_success_inv _ Hdown)
    as (tok' & d & r2 & a2 & a3 & Htok' & _ & Hcall' & Hres & Hmig & Hrun').
  unfold calls, after in *. rewrite Hrun' . rewrite Hrun in *.
  cbn [fst snd app remote trace sent] in *.
  rewrite stamped_gistToken in Htok'
    by (eapply member_truthy_object; eauto).
  assert (tok' = tok) by congruence. subst tok'.
  pose proof (download_upload _ _ _ _ _ _ _ Hcall Hcall') as Hblob.
  rewrite <- Hblob. rewrite !drop_app_length.
  exists d, d, a2. split; [reflexivity|]. split.
  { rewrite Hblob. unfold backup_blob, stringify_cache. reflexivity. }
  repeat split; try assumption.
  - apply in_or_app. right. by left.
  - apply in_or_app. right. by left.
  - apply read_write.
  - intros Hnode. unfold restored in Hres. rewrite Hnode in Hres.
    by inversion Hres.
  - intros Hnode. unfold restored in Hres. rewrite Hnode in Hres.
    destruct (JSON_parse d) as [parsed|e]; [|discriminate].
    exists parsed. split; [reflexivity|]. by inversion Hres.
Qed.

End Claims.

(** * The properties on concrete requests *)

Section Concrete.

Import Scenario.

(** The gate on a settings record without [gistToken]. *)
Lemma credential_gate_witness :
  credential_missing (app unconfigured)
  /\ replies (VStr "upload") unconfigured = [token_not_found]
  /\ calls (VStr "download") unconfigured = [ERead "settings"].
Proof.
  assert (Hmissing : credential_missing (app unconfigured)).
  { exists VUndefined. split; reflexivity. }
  split; [exact Hmissing|].
  destruct (credential_gate (VStr "upload") unconfigured Hmissing)
    as ((err & Hreply & _ & _) & _).
  destruct (credential_gate (VStr "download") unconfigured Hmissing)
    as (_ & _ & _ & _ & Hcalls & _).
  split; [reflexivity|exact Hcalls].
Defined.

Ltac find_event := repeat (first [left; reflexivity | right]).

(** The rollback when the remote service rejects the upload. *)
Lemma upload_failure_rolls_back_witness :
  In (EUpload "Sub-Store" (VStr "{}") (Throw rejected))
    (calls (VStr "upload") (configured false (failing_service rejected)))
  /\ syncTime_of
       (app (after (VStr "upload") (configured false (failing_service rejected))))
     = Normal (VNum 1690000000000).
Proof.
  assert (Hin : In (EUpload "Sub-Store" (VStr "{}") (Throw rejected))
                  (calls (VStr "upload")
                     (configured false (failing_service rejected)))).
  { vm_compute. find_event. }
  split; [exact Hin|].
  destruct (upload_failure_rolls_back _ _ _ _ Hin) as (Hsync & _).
  rewrite Hsync. reflexivity.
Defined.

(** The clock of the in-memory host never runs backwards. *)
Lemma mem_clock_monotone : monotone (clock (St := Mem.Store)).
Proof. intros i j Hij. simpl. lia. Qed.

(** The commit of a successful upload. *)
Lemma upload_commit_witness :
  replies (VStr "upload") (configured false empty_service) = [Success None]
  /\ syncTime_of (app (after (VStr "upload") (configured false empty_service)))
     = Normal (VNum 1700000000002).
Proof.
  assert (Hok : replies (VStr "upload") (configured false empty_service)
                = [Success None]) by reflexivity.
  split; [exact Hok|].
  destruct (upload_commit _ Hok) as (Hsync & _).
  rewrite Hsync. reflexivity.
Defined.

(** C2, as stated, fails: a stored [syncTime] ahead of the clock is
    replaced by an earlier one when the upload succeeds. *)
Lemma commit_property_fails : ~ commit_property ahead.
Proof.
  intros Hcommit.
  destruct (Hcommit mem_clock_monotone eq_refl) as (t & Ht & _ & Hgt).
  vm_compute in Ht. inversion Ht; subst t.
  specialize (Hgt 1800000000000 eq_refl). lia.
Qed.

(** The optimistic write of an upload attempt. *)
Lemma settings_persisted_before_upload_witness :
  credential_configured (app (configured false empty_service))
  /\ exists (pre mid rest : list event) (s blob : value) (r : Completion unit),
       calls (VStr "upload") (configured false empty_service)
         = (pre ++ EWrite s "settings"
                :: mid ++ EUpload "Sub-Store" blob r :: rest)%list
       /\ member "syncTime" s = Normal (VNum 1700000000002).
Proof.
  assert (Hcred : credential_configured (app (configured false empty_service))).
  { exists token. split; reflexivity. }
  split; [exact Hcred|].
  destruct (settings_persisted_before_upload _ Hcred)
    as (pre & mid & rest & s & blob & r & Hcalls & Hsync & _).
  exists pre, mid, rest, s, blob, r. split; [exact Hcalls|exact Hsync].
Defined.

(** The migration after a restore in Node. *)
Lemma migration_after_restore_witness :
  In (EDownload "Sub-Store" (Normal "{}"))
    (calls (VStr "download") (configured true (service_with "{}")))
  /\ count is_migrate
       (calls (VStr "download") (configured true (service_with "{}"))) = 1%nat.
Proof.
  assert (Hin : In (EDownload "Sub-Store" (Normal "{}"))
                  (calls (VStr "download")
                     (configured true (service_with "{}")))).
  { vm_compute. find_event. }
  split; [exact Hin|].
  apply (migration_after_restore _ _ _ Hin).
  eexists. reflexivity.
Defined.

(** C3, as stated, fails: in Node a backup file that is not JSON is
    downloaded and written to the store, and the migration is not
    run. *)
Lemma migration_property_fails : ~ migration_property garbled.
Proof.
  intros Hmig.
  assert (Hin : In (EDownload "Sub-Store" (Normal "<html>"))
                  (calls (VStr "download") garbled)).
  { vm_compute. find_event. }
  destruct (Hmig _ _ Hin) as (Hcount & _).
  vm_compute in Hcount. discriminate.
Qed.

(** The unknown action [sync]. *)
Lemma unknown_action_reads_only_witness :
  credential_configured (app (configured false empty_service))
  /\ VStr "sync" <> VStr "upload" /\ VStr "sync" <> VStr "download"
  /\ replies (VStr "sync") (configured false empty_service) = [Success None]
  /\ calls (VStr "sync") (configured false empty_service)
     = [ERead "settings"; ERead "settings"].
Proof.
  assert (Hcred : credential_configured (app (configured false empty_service))).
  { exists token. split; reflexivity. }
  assert (Hup : VStr "sync" <> VStr "upload") by discriminate.
  assert (Hdown : VStr "sync" <> VStr "download") by discriminate.
  repeat (split; [assumption|]).
  destruct (unknown_action_reads_only _ _ Hcred Hup Hdown)
    as (Hreply & _ & _ & Hcalls & _).
  split; [exact Hreply|exact Hcalls].
Defined.

(** C4, as stated, fails: the request with the unknown action [sync]
    reads the settings from the store, twice. *)
Lemma unknown_action_property_fails :
  ~ unknown_action_property (VStr "sync") (configured false empty_service).
Proof.
  intros Hprop.
  assert (Hcred : credential_configured (app (configured false empty_service))).
  { exists token. split; reflexivity. }
  destruct (Hprop Hcred) as (_ & _ & _ & _ & Hnone); try discriminate.
Qed.

(** An upload followed by a download in Node, of a cache that holds
    a subscription: the text uploaded is the text of the cache, and
    the cache after the download is that state again. *)
Lemma backup_round_trip_witness :
  replies (H1 := MemServices.host Snapshot.parse_state (fun s => (Normal tt, s)))
    (VStr "upload") Snapshot.node_world = [Success None]
  /\ replies (H1 := MemServices.host Snapshot.parse_state (fun s => (Normal tt, s)))
       (VStr "download")
       (after (H1 := MemServices.host Snapshot.parse_state
                       (fun s => (Normal tt, s)))
          (VStr "upload") Snapshot.node_world)
     = [Success None]
  /\ exists B : string,
       VStr B = VStr Snapshot.state_text
       /\ In (EUpload "Sub-Store" (VStr B) (Normal tt))
            (calls (H1 := MemServices.host Snapshot.parse_state
                            (fun s => (Normal tt, s)))
               (VStr "upload") Snapshot.node_world)
       /\ In (EDownload "Sub-Store" (Normal B))
            (calls (H1 := MemServices.host Snapshot.parse_state
                            (fun s => (Normal tt, s)))
               (VStr "download")
               (after (H1 := MemServices.host Snapshot.parse_state
                               (fun s => (Normal tt, s)))
                  (VStr "upload") Snapshot.node_world))
       /\ cache
            (app (after (H1 := MemServices.host Snapshot.parse_state
                                 (fun s => (Normal tt, s)))
                    (VStr "download")
                    (after (H1 := MemServices.host Snapshot.parse_state
                                    (fun s => (Normal tt, s)))
                       (VStr "upload") Snapshot.node_world)))
          = Snapshot.state.
Proof.
  assert (Hup : replies (H1 := MemServices.host Snapshot.parse_state
                                 (fun s => (Normal tt, s)))
                  (VStr "upload") Snapshot.node_world = [Success None])
    by reflexivity.
  assert (Hdown : replies (H1 := MemServices.host Snapshot.parse_state
                                   (fun s => (Normal tt, s)))
                    (VStr "download")
                    (after (H1 := MemServices.host Snapshot.parse_state
                                    (fun s => (Normal tt, s)))
                       (VStr "upload") Snapshot.node_world)
                  = [Success None]) by reflexivity.
  repeat (split; [assumption|]).
  destruct (backup_round_trip
              (H1 := MemServices.host Snapshot.parse_state
                       (fun s => (Normal tt, s)))
              _ Hup Hdown)
    as (B & D & a & _ & Hblob & HB & HD & Heq & _).
  exists B. split; [rewrite Hblob; reflexivity|].
  split; [exact HB|]. split; [rewrite <- Heq; exact HD|]. reflexivity.
Defined.

(** A download that the remote service rejects. *)
Lemma download_failure_leaves_store_witness :
  In (EDownload "Sub-Store" (Throw rejected))
    (calls (VStr "download") (configured false (failing_service rejected)))
  /\ app (after (VStr "download") (configured false (failing_service rejected)))
     = app (configured false (failing_service rejected)).
Proof.
  assert (Hin : In (EDownload "Sub-Store" (Throw rejected))
                  (calls (VStr "download")
                     (configured false (failing_service rejected)))).
  { vm_compute. find_event. }
  split; [exact Hin|].
  destruct (download_failure_leaves_store _ _ _ Hin) as (Happ & _).
  exact Happ.
Defined.

(** The empty token against the missing token. *)
Lemma falsy_token_is_no_token_witness :
  gistToken_of (app blank_token) = Normal (VStr "")
  /\ truthy (VStr "") = false
  /\ gistToken_of (app unconfigured) = Normal VUndefined
  /\ replies (VStr "upload") blank_token
     = replies (VStr "upload") unconfigured.
Proof.
  assert (Hblank : gistToken_of (app blank_token) = Normal (VStr ""))
    by reflexivity.
  assert (Hfalsy : truthy (VStr "") = false) by reflexivity.
  assert (Habsent : gistToken_of (app unconfigured) = Normal VUndefined)
    by reflexivity.
  repeat (split; [assumption|]).
  destruct (falsy_token_is_no_token (VStr "upload") _ _ _
              Hblank Hfalsy Habsent) as (_ & _ & Hreplies & _).
  exact Hreplies.
Defined.

(** C9 (failure reply), evaluated where it fails.  In Node, a backup
    file that is not JSON makes [JSON.parse] throw a SyntaxError; the
    reply has the code BACKUP_FAILED, but its reason is the JSON text
    of the error object, which has no enumerable property: the reason
    reads [Reason: {}] and includes neither the name nor the message of
    the error.  A cause that is a string is included. *)
Theorem backup_failed_reason_omits_error :
  JSON_parse (St := Mem.Store) "<html>"
    = Throw (Json.SyntaxError "Unexpected token in JSON: <html>")
  /\ replies (VStr "download") garbled
     = [Failed (InternalServerError "BACKUP_FAILED"
                  "Failed to download data to gist!" "Reason: {}")]
  /\ (forall name message : string,
        stringified (St := Mem.Store) (VError name message []) = "{}")
  /\ (forall r, In r (replies (VStr "download") garbled) ->
        reason_includes "SyntaxError" r = false
        /\ reason_includes "Unexpected token" r = false)
  /\ (forall r,
        In r (replies (VStr "upload")
                (configured false (failing_service rejected))) ->
        reason_includes "ERROR: Bad credentials" r = true).
Proof.
  split; [reflexivity|]. split; [reflexivity|]. split; [reflexivity|].
  split.
  - intros r Hr. vm_compute in Hr. destruct Hr as [<-|[]].
    split; reflexivity.
  - intros r Hr. vm_compute in Hr. destruct Hr as [<-|[]].
    reflexivity.
Qed.

End Concrete.

(** * More on the backup handler *)

Section BackupBehaviour.

Context {St R : Type} {LS : LocalStateStore St} {RC : RemoteBackupClient R}
  {HO : Host St}.

Implicit Types (w : World St R) (action tok : value) (a : St).

Ltac by_path action w :=
  unfold calls, replies, settles, after;
  destruct (gistBackup_path action w);
  cbn [fst snd app remote trace sent];
  rewrite ?drop_app_length, ?drop_all.

Ltac split_event H :=
  unfold upload_prefix, download_prefix, restore_calls in H; simpl in H;
  repeat match type of H with
         | context [if ?b then _ else _] => destruct b eqn:?; simpl in H
         | context [match ?c with Normal _ => _ | Throw _ => _ end] =>
             destruct c eqn:?; simpl in H
         | _ \/ _ => destruct H as [H|H]
         | False => destruct H
         end.

(** Only undefined and null have no properties to read. *)
Lemma member_throws (k : string) (o : value) :
  (exists e, member k o = Throw e) <-> o = VUndefined \/ o = VNull.
Proof.
  split.
  - intros [e He]. destruct o; simpl in He; try discriminate; auto.
  - intros [-> | ->]; simpl; eauto.
Qed.

(** X1.  A settings record that is undefined or null makes the
    destructuring of the first statement throw outside any [try]: the
    handler rejects, whatever the action; it sends no reply, and its
    only call is the read of the settings. *)
Theorem unreadable_settings_rejects action w :
  settings_of (app w) = VUndefined \/ settings_of (app w) = VNull ->
  (exists e, settles action w = Throw e)
  /\ replies action w = []
  /\ calls action w = [ERead SETTINGS_KEY]
  /\ app (after action w) = app w
  /\ remote (after action w) = remote w.
Proof.
  intros Hnone.
  apply (member_throws "gistToken") in Hnone. destruct Hnone as [e He].
  fold (gistToken_of (app w)) in He.
  by_path action w; try congruence.
  repeat split; eauto.
Qed.

(** X2.  With a settings record that is neither undefined nor null,
    the handler fulfils and sends exactly one reply, whatever the
    action and however the remote call and the migration end. *)
Theorem exactly_one_reply action w :
  settings_of (app w) <> VUndefined -> settings_of (app w) <> VNull ->
  settles action w = Normal tt
  /\ exists r, replies action w = [r].
Proof.
  intros Hu Hn.
  by_path action w; try (split; [reflexivity|eauto]).
  exfalso.
  assert (Hthrow : exists e0, member "gistToken" (settings_of (app w)) = Throw e0)
    by eauto.
  apply member_throws in Hthrow. tauto.
Qed.

Lemma restore_calls_no_network (d : string) a :
  count is_network_call (restore_calls d a) = 0%nat.
Proof.
  unfold restore_calls.
  destruct (env_isNode _); [|reflexivity].
  destruct (JSON_parse d); reflexivity.
Qed.

Lemma count_append (p : event -> bool) (l1 l2 : list event) :
  count p (l1 ++ l2) = (count p l1 + count p l2)%nat.
Proof. unfold count. by rewrite List.filter_app, length_app. Qed.

Lemma count_cons (p : event -> bool) (e : event) (l : list event) :
  count p (e :: l) = ((if p e then 1 else 0) + count p l)%nat.
Proof. unfold count. simpl. by destruct (p e). Qed.

Ltac count_calls :=
  unfold upload_prefix, download_prefix;
  repeat first [ rewrite count_append | rewrite count_cons
               | rewrite restore_calls_no_network ];
  simpl; unfold count; simpl.

(** X3.  A request makes at most one network call and never retries;
    an upload is only called for the action upload, a download and
    the migration only for the action download. *)
Theorem at_most_one_network_call action w :
  (count is_network_call (calls action w) <= 1)%nat
  /\ (forall file blob r,
        In (EUpload file blob r) (calls action w) -> action = VStr "upload")
  /\ (forall file r,
        In (EDownload file r) (calls action w) -> action = VStr "download")
  /\ (forall m,
        In (EMigrate m) (calls action w) -> action = VStr "download").
Proof.
  by_path action w.
  all: split; [count_calls; lia|].
  all: repeat split; intros; subst;
    match goal with
    | Hin : In _ _ |- _ =>
        try (apply in_app_or in Hin); split_event Hin;
        try discriminate; try congruence
    end.
Qed.

Lemma stamped_member_ne (n : nat) (k : string) a :
  k <> "syncTime" ->
  member k (stamped_settings n a) = member k (settings_of a).
Proof.
  intros Hk. unfold stamped_settings.
  destruct (assign "syncTime" _ (settings_of a)) as [s|e] eqn:Hs; [|done].
  eapply member_assign_ne; eauto.
Qed.

Lemma rolled_back_member_ne (n : nat) (k : string) a :
  k <> "syncTime" ->
  member k (rolled_back_settings n a) = member k (settings_of a).
Proof.
  intros Hk. unfold rolled_back_settings.
  destruct (syncTime_of a) as [u|e]; [|by apply stamped_member_ne].
  destruct (assign "syncTime" u (stamped_settings n a)) as [s|e] eqn:Hs;
    [|by apply stamped_member_ne].
  rewrite (member_assign_ne _ _ _ _ _ Hk Hs). by apply stamped_member_ne.
Qed.

(** X4.  An upload request changes nothing of the settings but
    [syncTime]: every other property of the stored record, the
    credential among them, reads after the request as it read before,
    whether the upload succeeded, failed or was not attempted. *)
Theorem upload_changes_only_syncTime w (k : string) :
  k <> "syncTime" ->
  member k (settings_of (app (after (VStr "upload") w)))
  = member k (settings_of (app w)).
Proof.
  intros Hk.
  by_path (VStr "upload") w; try reflexivity; try congruence.
  - unfold stamped. rewrite settings_of_write. by apply stamped_member_ne.
  - rewrite settings_of_write. by apply rolled_back_member_ne.
Qed.

Lemma assign_prop_back (k : string) (v u : value) (ps : list (string * value)) :
  lookup_prop k ps = Some u ->
  assign_prop k u (assign_prop k v ps) = ps.
Proof.
  induction ps as [|[k' v'] ps IH]; simpl; [discriminate|].
  destruct (String.eqb k' k) eqn:E; simpl.
  - intros Hu. inversion Hu; subst.
    rewrite String.eqb_refl. apply String.eqb_eq in E. by subst.
  - intros Hu. rewrite E. by rewrite IH.
Qed.

Lemma assign_prop_fresh (k : string) (v : value) (ps : list (string * value)) :
  lookup_prop k ps = None ->
  assign_prop k v ps = (ps ++ [(k, v)])%list.
Proof.
  induction ps as [|[k' v'] ps IH]; simpl; [done|].
  destruct (String.eqb k' k) eqn:E; [discriminate|].
  intros Hnone. by rewrite IH.
Qed.

Lemma assign_prop_last (k : string) (v u : value) (ps : list (string * value)) :
  lookup_prop k ps = None ->
  assign_prop k u (ps ++ [(k, v)])%list = (ps ++ [(k, u)])%list.
Proof.
  induction ps as [|[k' v'] ps IH]; simpl.
  - by rewrite String.eqb_refl.
  - destruct (String.eqb k' k) eqn:E; [discriminate|].
    intros Hnone. by rewrite IH.
Qed.

(** X5.  When the stored settings are a plain object that has a
    [syncTime], a failed upload leaves the stored record exactly as
    it was: same properties, same values, same order. *)
Theorem rollback_restores_record w ps u file blob e :
  settings_of (app w) = VObj ps ->
  lookup_prop "syncTime" ps = Some u ->
  In (EUpload file blob (Throw e)) (calls (VStr "upload") w) ->
  settings_of (app (after (VStr "upload") w)) = VObj ps.
Proof.
  intros Hs Hu. revert file blob e.
  by_path (VStr "upload") w; intros file blob e0 Hin; split_event Hin;
    try discriminate; try congruence.
  rewrite settings_of_write.
  unfold rolled_back_settings, syncTime_of, stamped_settings.
  rewrite Hs. simpl. rewrite Hu. simpl.
  by rewrite assign_prop_back.
Qed.

(** X6.  When the stored settings are a plain object without
    [syncTime], a failed upload does not leave the record as it was:
    the rollback assigns the undefined it had read, and the record
    ends with a [syncTime] property holding undefined. *)
Theorem rollback_leaves_undefined_syncTime w ps file blob e :
  settings_of (app w) = VObj ps ->
  lookup_prop "syncTime" ps = None ->
  In (EUpload file blob (Throw e)) (calls (VStr "upload") w) ->
  settings_of (app (after (VStr "upload") w))
  = VObj (ps ++ [("syncTime", VUndefined)])%list.
Proof.
  intros Hs Hu. revert file blob e.
  by_path (VStr "upload") w; intros file blob e0 Hin; split_event Hin;
    try discriminate; try congruence.
  rewrite settings_of_write.
  unfold rolled_back_settings, syncTime_of, stamped_settings.
  rewrite Hs. simpl. rewrite Hu. simpl.
  rewrite (assign_prop_fresh _ _ _ Hu).
  by rewrite (assign_prop_last _ _ _ _ Hu).
Qed.

(** X7.  A migration that throws is reported as BACKUP_FAILED with
    the thrown value, and by then the store has been overwritten: the
    download had succeeded, its text was written to the state
    document, and the request leaves the store as the migration left
    it when it threw. *)
Theorem migration_failure_after_overwrite w e :
  In (EMigrate (Throw e)) (calls (VStr "download") w) ->
  replies (VStr "download") w = [backup_failed (VStr "download") e]
  /\ exists (d : string) a,
       In (EDownload GIST_BACKUP_FILE_NAME (Normal d))
         (calls (VStr "download") w)
       /\ In (EWrite (VStr d) "#sub-store") (calls (VStr "download") w)
       /\ restored d (app w) = Normal a
       /\ migrate a = (Throw e, app (after (VStr "download") w)).
Proof.
  revert e.
  by_path (VStr "download") w; intros e0 Hin; split_event Hin;
    try discriminate; try congruence.
  all: inversion Hin; subst; split; [reflexivity|];
    exists d, a2; repeat split; try assumption.
  all: try (apply in_or_app; right; by left).
  all: apply in_or_app; right; right; apply in_or_app; left;
    unfold restore_calls; by left.
Qed.

(** X8.  When the download succeeds but the store cannot be restored
    from its text (Node, and [JSON.parse] throws), the request fails
    with BACKUP_FAILED and yet the state document has been
    overwritten: the store is the old one with that text written
    under [#sub-store], which is what [GET /api/storage] then serves;
    the cache is not assigned and the migration is not run. *)
Theorem unparsed_download_overwrites w file d e :
  In (EDownload file (Normal d)) (calls (VStr "download") w) ->
  restored d (app w) = Throw e ->
  replies (VStr "download") w = [backup_failed (VStr "download") e]
  /\ app (after (VStr "download") w) = write (VStr d) "#sub-store" (app w)
  /\ storage_get (app (after (VStr "download") w)) = VStr d
  /\ JSON_parse d = Throw e
  /\ env_isNode (write (VStr d) "#sub-store" (app w)) = true
  /\ last (calls (VStr "download") w) = Some (EWrite (VStr d) "#sub-store").
Proof.
  intros Hin Hres. revert Hin.
  assert (Hwhy : JSON_parse d = Throw e
                 /\ env_isNode (write (VStr d) "#sub-store" (app w)) = true).
  { unfold restored in Hres.
    destruct (env_isNode _); [|discriminate].
    destruct (JSON_parse d); [discriminate|]. by inversion Hres. }
  destruct Hwhy as [Hparse Hnode].
  by_path (VStr "download") w; intros Hin; split_event Hin;
    try discriminate; try congruence.
  all: inversion Hin; subst; try congruence.
  assert (e0 = e) by congruence. subst e0.
  repeat split; try assumption; try reflexivity.
  unfold storage_get. apply read_write.
Qed.

(** X9.  A success reply is never sent over a failure: when the
    request replies success, every remote call and every migration it
    made completed normally; an upload request did call the upload,
    and a download request did call the download and the migration. *)
Theorem success_reply_means_completed action w :
  replies action w = [Success None] ->
  (forall file blob r,
      In (EUpload file blob r) (calls action w) -> r = Normal tt)
  /\ (forall file r,
        In (EDownload file r) (calls action w) -> exists d, r = Normal d)
  /\ (forall m, In (EMigrate m) (calls action w) -> m = Normal tt)
  /\ (action = VStr "upload" ->
      exists blob,
        In (EUpload GIST_BACKUP_FILE_NAME blob (Normal tt)) (calls action w))
  /\ (action = VStr "download" ->
      exists d,
        In (EDownload GIST_BACKUP_FILE_NAME (Normal d)) (calls action w)
        /\ In (EMigrate (Normal tt)) (calls action w)).
Proof.
  by_path action w; intros Hok; try discriminate.
  all: try (destruct m as [[]|em]; [|discriminate]).
  all: repeat split; intros; subst; try congruence.
  all: try match goal with
           | Hin : In _ _ |- _ =>
               split_event Hin; try discriminate; try congruence;
               inversion Hin; subst; eauto
           end.
  - eexists. apply in_or_app. right. by left.
  - exists d. split.
    + apply in_or_app. right. by left.
    + apply in_or_app. right. right. apply in_or_app. right. by left.
Qed.

(** X10.  An upload request writes to the store only through
    [$.write] under the settings key: it never writes the state
    document, never assigns or persists the cache and never runs the
    migration. *)
Theorem upload_writes_settings_only w (ev : event) :
  In ev (calls (VStr "upload") w) ->
  (is_write ev = true -> exists s, ev = EWrite s SETTINGS_KEY)
  /\ is_migrate ev = false.
Proof.
  by_path (VStr "upload") w; intros Hin; split_event Hin; subst;
    try discriminate; try congruence;
    split; try reflexivity; try discriminate; eauto.
Qed.

(** X11.  A download request writes to the store only the downloaded
    text, under [#sub-store]; it assigns and persists the cache only
    in Node, with what [JSON.parse] made of that text; it never writes
    the settings through [$.write] unless the settings key is
    [#sub-store] itself. *)
Theorem download_writes_document_only w (ev : event) :
  In ev (calls (VStr "download") w) ->
  is_write ev = true ->
  exists d,
    In (EDownload GIST_BACKUP_FILE_NAME (Normal d)) (calls (VStr "download") w)
    /\ (ev = EWrite (VStr d) "#sub-store"
        \/ (env_isNode (write (VStr d) "#sub-store" (app w)) = true
            /\ ((exists parsed,
                    JSON_parse d = Normal parsed /\ ev = ESetCache parsed)
                \/ ev = EPersistCache))).
Proof.
  by_path (VStr "download") w; intros Hin Hw; split_event Hin; subst;
    try discriminate; try congruence.
  all: exists d; split; [apply in_or_app; right; by left|]; eauto 6.
Qed.

End BackupBehaviour.

(** * The other handlers *)

Section OtherBehaviour.

Context {St R : Type} {LS : LocalStateStore St} {RC : RemoteBackupClient R}
  {HO : Host St} {SV : Services St}.

Implicit Types (w : World St R) (req : Request) (a : St).

(** X12.  [getEnv] replies success with the name of the platform and
    the version; the name is always one of the six platforms, and it
    is Node when no flag is set. *)
Theorem backend_name_is_known (f : Flags) w :
  answers getEnv w
    = [Success (Some (VObj [("backend", VStr (backend_name ENV));
                            ("version", substoreVersion)]))]
  /\ In (backend_name f) ["Node"; "QX"; "Loon"; "Surge"; "Stash"; "ShadowRocket"]
  /\ (truthy (flag_isQX f) = false ->
      truthy (flag_isLoon f) = false ->
      truthy (flag_isSurge f) = false ->
      truthy (flag_isStash f) = false ->
      truthy (flag_isShadowRocket f) = false ->
      backend_name f = "Node").
Proof.
  split.
  { unfold answers, getEnv, success_with, respond. simpl.
    by rewrite drop_app_length. }
  unfold backend_name. split.
  - destruct (truthy (flag_isNode f)), (truthy (flag_isQX f)),
      (truthy (flag_isLoon f)), (truthy (flag_isSurge f)),
      (truthy (flag_isStash f)), (truthy (flag_isShadowRocket f));
      simpl; tauto.
  - intros -> -> -> -> ->. by destruct (truthy (flag_isNode f)).
Qed.

(** X13.  When several flags are set, [getEnv] names the platform of
    the one tested last, in the order Node, QX, Loon, Surge, Stash,
    ShadowRocket: a set flag wins over every flag before it and loses
    to any set flag after it. *)
Theorem backend_name_last_flag_wins (f : Flags) :
  (truthy (flag_isShadowRocket f) = true -> backend_name f = "ShadowRocket")
  /\ (truthy (flag_isStash f) = true ->
      truthy (flag_isShadowRocket f) = false ->
      backend_name f = "Stash")
  /\ (truthy (flag_isSurge f) = true ->
      truthy (flag_isStash f) = false ->
      truthy (flag_isShadowRocket f) = false ->
      backend_name f = "Surge")
  /\ (truthy (flag_isLoon f) = true ->
      truthy (flag_isSurge f) = false ->
      truthy (flag_isStash f) = false ->
      truthy (flag_isShadowRocket f) = false ->
      backend_name f = "Loon")
  /\ (truthy (flag_isQX f) = true ->
      truthy (flag_isLoon f) = false ->
      truthy (flag_isSurge f) = false ->
      truthy (flag_isStash f) = false ->
      truthy (flag_isShadowRocket f) = false ->
      backend_name f = "QX").
Proof.
  unfold backend_name.
  repeat split; intros; repeat match goal with
                               | Hf : truthy _ = _ |- _ => rewrite Hf; clear Hf
                               end; reflexivity.
Qed.

(** X14.  [refresh] replies, with success, exactly when the avatar
    update, the artifact-store update and the cache revocation all
    complete, applied in that order.  A step that throws ends the
    handler: the later steps are not applied, no reply is sent and the
    handler rejects with the thrown value. *)
Theorem refresh_replies_after_all_steps w :
  match updateGitHubAvatar (app w) with
  | (Throw e, a1) =>
      (refresh w).1 = Throw e /\ answers refresh w = []
      /\ app (refresh w).2 = a1
  | (Normal _, a1) =>
      match updateArtifactStore a1 with
      | (Throw e, a2) =>
          (refresh w).1 = Throw e /\ answers refresh w = []
          /\ app (refresh w).2 = a2
      | (Normal _, a2) =>
          match revokeAll a2 with
          | (Throw e, a3) =>
              (refresh w).1 = Throw e /\ answers refresh w = []
              /\ app (refresh w).2 = a3
          | (Normal _, a3) =>
              (refresh w).1 = Normal tt
              /\ answers refresh w = [Success None]
              /\ app (refresh w).2 = a3
          end
      end
  end.
Proof.
  unfold answers, refresh, bind, call, success, respond.
  destruct (updateGitHubAvatar (app w)) as [[[]|e] a1]; simpl;
    [|by rewrite drop_all].
  destruct (updateArtifactStore a1) as [[[]|e] a2]; simpl;
    [|by rewrite drop_all].
  destruct (revokeAll a2) as [[[]|e] a3]; simpl;
    [|by rewrite drop_all].
  by rewrite drop_app_length.
Qed.

Lemma getNodeInfo_run req w l :
  member "lang" (req_query req) = Normal l ->
  getNodeInfo req w =
    (Normal tt,
     mkWorld (app w) (remote w) (trace w)
       (sent w ++ [node_info_reply (req_body req) (lang_or_default l)])).
Proof.
  intros Hl.
  unfold getNodeInfo, node_info_reply, bind, try_catch, eval, ret,
    success_with, respond.
  rewrite Hl.
  destruct (produce (req_body req)) as [u|e]; simpl;
    destruct (lookup_info _ _) as [info|err]; reflexivity.
Qed.

(** X15.  With a query that is an object, [getNodeInfo] fulfils and
    sends exactly one reply, whatever the request body is and however
    the producer and the lookup end; it leaves the local store and
    the remote service alone. *)
Theorem getNodeInfo_replies_once req w :
  req_query req <> VUndefined -> req_query req <> VNull ->
  (getNodeInfo req w).1 = Normal tt
  /\ (exists r, answers (getNodeInfo req) w = [r])
  /\ app (getNodeInfo req w).2 = app w
  /\ remote (getNodeInfo req w).2 = remote w.
Proof.
  intros Hu Hn.
  destruct (member "lang" (req_query req)) as [l|e] eqn:Hl.
  - unfold answers. rewrite (getNodeInfo_run _ _ _ Hl). simpl.
    rewrite drop_app_length. eauto.
  - exfalso.
    assert (Hthrow : exists e0, member "lang" (req_query req) = Throw e0)
      by eauto.
    apply member_throws in Hthrow. tauto.
Qed.

(** X16.  A [lang] that is missing or falsy (the empty string) is
    replaced by [zh-CN]: the request is handled exactly as the same
    request with [lang=zh-CN]. *)
Theorem getNodeInfo_lang_default body q q' l w :
  member "lang" q = Normal l -> truthy l = false ->
  member "lang" q' = Normal (VStr "zh-CN") ->
  getNodeInfo (mkRequest body q) w = getNodeInfo (mkRequest body q') w.
Proof.
  intros Hl Hfalsy Hl'.
  rewrite (getNodeInfo_run (mkRequest body q) w l Hl).
  rewrite (getNodeInfo_run (mkRequest body q') w _ Hl').
  unfold lang_or_default. rewrite Hfalsy. reflexivity.
Qed.

(** X17.  A producer that throws is ignored: the lookup is still made
    and alone decides the reply, which on success carries an
    undefined [shareUrl]. *)
Theorem getNodeInfo_ignores_producer_failure req w l e :
  member "lang" (req_query req) = Normal l ->
  produce (req_body req) = Throw e ->
  answers (getNodeInfo req) w =
    [match lookup_info (req_body req) (lang_or_default l) with
     | Normal info =>
         Success (Some (VObj [("shareUrl", VUndefined); ("info", info)]))
     | Throw err => node_info_failed err
     end].
Proof.
  intros Hl He. unfold answers.
  rewrite (getNodeInfo_run _ _ _ Hl). simpl. rewrite drop_app_length.
  unfold node_info_reply. by rewrite He.
Qed.

(** X18.  Every failure of the lookup (a missing proxy, a URI that
    cannot be encoded, a rejected request, a body that is not JSON, a
    status other than success) is answered by the network error of
    code FAILED_TO_GET_NODE_INFO whose reason is the thrown value
    converted to a string; for an [Error] with a name and a message
    that is the name, a colon and the message. *)
Theorem getNodeInfo_failure_reply req w l err :
  member "lang" (req_query req) = Normal l ->
  lookup_info (req_body req) (lang_or_default l) = Throw err ->
  answers (getNodeInfo req) w
    = [Failed (NetworkError "FAILED_TO_GET_NODE_INFO" "Failed to get node info"
                 ("Reason: " +:+ ToString err))]
  /\ (forall name msg ps,
        err = VError name msg ps -> name <> "" -> msg <> "" ->
        ToString err = name +:+ ": " +:+ msg).
Proof.
  intros Hl Herr. split.
  - unfold answers. rewrite (getNodeInfo_run _ _ _ Hl). simpl.
    rewrite drop_app_length. unfold node_info_reply. by rewrite Herr.
  - intros name msg ps -> Hname Hmsg. simpl.
    destruct (String.eqb msg "") eqn:E1;
      [apply String.eqb_eq in E1; congruence|].
    destruct (String.eqb name "") eqn:E2;
      [apply String.eqb_eq in E2; congruence|].
    reflexivity.
Qed.

(** X19.  A request without a proxy (an undefined or null body) is
    answered, not rejected: reading [proxy.server] throws inside the
    [try] block and the reply is the FAILED_TO_GET_NODE_INFO error. *)
Theorem getNodeInfo_missing_proxy req w l :
  member "lang" (req_query req) = Normal l ->
  req_body req = VUndefined \/ req_body req = VNull ->
  (getNodeInfo req w).1 = Normal tt
  /\ exists err,
       answers (getNodeInfo req) w = [Failed err]
       /\ type err = Network
       /\ code err = "FAILED_TO_GET_NODE_INFO".
Proof.
  intros Hl Hbody.
  apply (member_throws "server") in Hbody. destruct Hbody as [e He].
  rewrite (getNodeInfo_run _ _ _ Hl). split; [reflexivity|].
  unfold answers. rewrite (getNodeInfo_run _ _ _ Hl). simpl.
  rewrite drop_app_length.
  unfold node_info_reply, lookup_info. rewrite He.
  eexists. repeat split; reflexivity.
Qed.

(** X20.  A query that is undefined or null makes [getNodeInfo] throw
    before its first [try]: the handler rejects and sends no reply. *)
Theorem getNodeInfo_unreadable_query req w :
  req_query req = VUndefined \/ req_query req = VNull ->
  (exists e, (getNodeInfo req w).1 = Throw e)
  /\ answers (getNodeInfo req) w = [].
Proof.
  intros Hq. apply (member_throws "lang") in Hq. destruct Hq as [e He].
  unfold answers, getNodeInfo, bind, eval. rewrite He. simpl.
  rewrite drop_all. eauto.
Qed.

Lemma lookup_remove_prop (k : string) (ps : list (string * value)) :
  lookup_prop k (remove_prop k ps) = None.
Proof.
  induction ps as [|[k' v] ps IH]; simpl; [done|].
  destruct (String.eqb k' k) eqn:E; simpl; [done|]. by rewrite E.
Qed.

Lemma lookup_remove_prop_ne (k k' : string) (ps : list (string * value)) :
  k' <> k -> lookup_prop k' (remove_prop k ps) = lookup_prop k' ps.
Proof.
  intros Hne. induction ps as [|[k0 v] ps IH]; simpl; [done|].
  destruct (String.eqb k0 k) eqn:E; simpl.
  - apply String.eqb_eq in E. subst k0.
    destruct (String.eqb k k') eqn:E'; [|done].
    apply String.eqb_eq in E'. congruence.
  - by rewrite IH.
Qed.

(** X21.  The lookup succeeds only on a body that parses to data
    whose [status] is the string [success]; the info it yields is
    that data without [status] and with every other property as it
    was. *)
Theorem read_info_strips_status (resp info : value) :
  read_info resp = Normal info ->
  exists body data,
    member "body" resp = Normal body
    /\ JSON_parse (ToString body) = Normal data
    /\ member "status" data = Normal (VStr "success")
    /\ info = delete_member "status" data
    /\ member "status" info = Normal VUndefined
    /\ forall k, k <> "status" -> member k info = member k data.
Proof.
  unfold read_info. intros Hinfo.
  destruct (member "body" resp) as [body|] eqn:Hbody; [|discriminate].
  destruct (JSON_parse (ToString body)) as [data|] eqn:Hdata; [|discriminate].
  destruct (member "status" data) as [status|] eqn:Hstatus; [|discriminate].
  destruct (strict_eq_str status "success") eqn:Hs; simpl in Hinfo.
  2: { destruct (member "message" data); discriminate. }
  apply strict_eq_str_true in Hs. subst status.
  inversion Hinfo; subst info.
  exists body, data. repeat split; try assumption; try reflexivity.
  - destruct data; simpl in *; try discriminate;
      by rewrite lookup_remove_prop.
  - intros k Hk. destruct data; simpl in *; try reflexivity;
      by rewrite lookup_remove_prop_ne.
Qed.

(** X22.  A lookup that answers with a status other than [success]
    is reported with the message of the answer: when the message is a
    non-empty string, the callback throws an [Error] that converts to
    [Error: ] followed by that message. *)
Theorem read_info_reports_message (resp body data status : value) (msg : string) :
  member "body" resp = Normal body ->
  JSON_parse (ToString body) = Normal data ->
  member "status" data = Normal status ->
  status <> VStr "success" ->
  member "message" data = Normal (VStr msg) ->
  msg <> "" ->
  exists err,
    read_info resp = Throw err
    /\ ToString err = "Error: " +:+ msg.
Proof.
  intros Hbody Hdata Hstatus Hne Hmsg Hnonempty.
  unfold read_info. rewrite Hbody, Hdata, Hstatus.
  apply strict_eq_str_false in Hne. rewrite Hne. simpl. rewrite Hmsg.
  eexists. split; [reflexivity|]. simpl.
  destruct (String.eqb msg "") eqn:E; [|reflexivity].
  apply String.eqb_eq in E. congruence.
Qed.

(** X23.  What [POST /api/storage] stores is what [GET /api/storage]
    serves: the JSON text of the posted body; and a download request
    whose remote call fails leaves it so. *)
Theorem storage_survives_failed_download (data : value) w file e :
  In (EDownload file (Throw e))
    (calls (VStr "download")
       (mkWorld (storage_post data (app w)) (remote w) (trace w) (sent w))) ->
  storage_get (storage_post data (app w)) = stringify_body data
  /\ storage_get
       (app (after (VStr "download")
               (mkWorld (storage_post data (app w)) (remote w)
                  (trace w) (sent w))))
     = stringify_body data.
Proof.
  intros Hin.
  assert (Hget : storage_get (storage_post data (app w)) = stringify_body data)
    by apply read_write.
  split; [exact Hget|].
  revert Hin. unfold calls, after.
  destruct (gistBackup_path (VStr "download")
              (mkWorld (storage_post data (app w)) (remote w)
                 (trace w) (sent w)));
    cbn [fst snd app remote trace sent];
    rewrite ?drop_app_length, ?drop_all; intros Hin;
    try exact Hget; try discriminate.
  all: exfalso; unfold download_prefix, restore_calls in Hin; simpl in Hin;
    repeat match type of Hin with
           | context [if ?b then _ else _] => destruct b eqn:?; simpl in Hin
           | context [match ?c with Normal _ => _ | Throw _ => _ end] =>
               destruct c eqn:?; simpl in Hin
           | _ \/ _ => destruct Hin as [Hin|Hin]
           | False => destruct Hin
           end; discriminate.
Qed.

End OtherBehaviour.

(** * The further properties on concrete requests *)

Section MoreConcrete.
Import Scenario MemServices.

Ltac pick_event := repeat (first [left; reflexivity | right]).

(** A store in which no settings were ever written. *)
Lemma unreadable_settings_rejects_witness :
  (settings_of (app (world (Mem.mkStore false ∅ (VObj []) (VObj []))
                       empty_service)) = VUndefined
   \/ settings_of (app (world (Mem.mkStore false ∅ (VObj []) (VObj []))
                          empty_service)) = VNull)
  /\ replies (VStr "upload")
       (world (Mem.mkStore false ∅ (VObj []) (VObj [])) empty_service) = [].
Proof.
  assert (Hnone : settings_of
                    (app (world (Mem.mkStore false ∅ (VObj []) (VObj []))
                            empty_service)) = VUndefined
                  \/ settings_of
                       (app (world (Mem.mkStore false ∅ (VObj []) (VObj []))
                               empty_service)) = VNull)
    by (left; reflexivity).
  split; [exact Hnone|].
  destruct (unreadable_settings_rejects (VStr "upload") _ Hnone)
    as (_ & Hreplies & _).
  exact Hreplies.
Defined.

(** One reply to an upload that the remote service rejects. *)
Lemma exactly_one_reply_witness :
  settings_of (app (configured false (failing_service rejected))) <> VUndefined
  /\ settings_of (app (configured false (failing_service rejected))) <> VNull
  /\ settles (VStr "upload") (configured false (failing_service rejected))
     = Normal tt.
Proof.
  assert (Hu : settings_of (app (configured false (failing_service rejected)))
               <> VUndefined) by discriminate.
  assert (Hn : settings_of (app (configured false (failing_service rejected)))
               <> VNull) by discriminate.
  repeat (split; [assumption|]).
  destruct (exactly_one_reply (VStr "upload") _ Hu Hn) as (Hsettles & _).
  exact Hsettles.
Defined.

(** The credential across a successful upload. *)
Lemma upload_changes_only_syncTime_witness :
  "gistToken" <> "syncTime"
  /\ member "gistToken"
       (settings_of (app (after (VStr "upload") (configured false empty_service))))
     = Normal token.
Proof.
  assert (Hk : "gistToken" <> "syncTime") by discriminate.
  split; [exact Hk|].
  rewrite (upload_changes_only_syncTime (configured false empty_service)
             "gistToken" Hk).
  reflexivity.
Defined.

(** The record across a rejected upload. *)
Lemma rollback_restores_record_witness :
  settings_of (app (configured false (failing_service rejected)))
    = VObj [("gistToken", token); ("syncTime", VNum 1690000000000)]
  /\ lookup_prop "syncTime"
       [("gistToken", token); ("syncTime", VNum 1690000000000)]
     = Some (VNum 1690000000000)
  /\ In (EUpload "Sub-Store" (VStr "{}") (Throw rejected))
       (calls (VStr "upload") (configured false (failing_service rejected)))
  /\ settings_of
       (app (after (VStr "upload") (configured false (failing_service rejected))))
     = VObj [("gistToken", token); ("syncTime", VNum 1690000000000)].
Proof.
  assert (Hs : settings_of (app (configured false (failing_service rejected)))
               = VObj [("gistToken", token); ("syncTime", VNum 1690000000000)])
    by reflexivity.
  assert (Hu : lookup_prop "syncTime"
                 [("gistToken", token); ("syncTime", VNum 1690000000000)]
               = Some (VNum 1690000000000)) by reflexivity.
  assert (Hin : In (EUpload "Sub-Store" (VStr "{}") (Throw rejected))
                  (calls (VStr "upload")
                     (configured false (failing_service rejected)))).
  { vm_compute. pick_event. }
  repeat (split; [assumption|]).
  exact (rollback_restores_record _ _ _ _ _ _ Hs Hu Hin).
Defined.

(** A first upload, rejected: the record had no [syncTime]. *)
Lemma rollback_leaves_undefined_syncTime_witness :
  settings_of (app (world (store false (VObj [("gistToken", token)]))
                      (failing_service rejected)))
    = VObj [("gistToken", token)]
  /\ lookup_prop "syncTime" [("gistToken", token)] = None
  /\ In (EUpload "Sub-Store" (VStr "{}") (Throw rejected))
       (calls (VStr "upload")
          (world (store false (VObj [("gistToken", token)]))
             (failing_service rejected)))
  /\ settings_of
       (app (after (VStr "upload")
               (world (store false (VObj [("gistToken", token)]))
                  (failing_service rejected))))
     = VObj [("gistToken", token); ("syncTime", VUndefined)].
Proof.
  assert (Hs : settings_of
                 (app (world (store false (VObj [("gistToken", token)]))
                         (failing_service rejected)))
               = VObj [("gistToken", token)]) by reflexivity.
  assert (Hu : lookup_prop "syncTime" [("gistToken", token)] = None)
    by reflexivity.
  assert (Hin : In (EUpload "Sub-Store" (VStr "{}") (Throw rejected))
                  (calls (VStr "upload")
                     (world (store false (VObj [("gistToken", token)]))
                        (failing_service rejected)))).
  { vm_compute. pick_event. }
  repeat (split; [assumption|]).
  exact (rollback_leaves_undefined_syncTime _ _ _ _ _ Hs Hu Hin).
Defined.

(** A migration that does not know the schema of the backup. *)
Lemma migration_failure_after_overwrite_witness :
  In (EMigrate (Throw outdated))
    (calls (H1 := failing_migration_host) (VStr "download")
       (configured false (service_with "{}")))
  /\ replies (H1 := failing_migration_host) (VStr "download")
       (configured false (service_with "{}"))
     = [backup_failed (H1 := failing_migration_host) (VStr "download") outdated].
Proof.
  assert (Hin : In (EMigrate (Throw outdated))
                  (calls (H1 := failing_migration_host) (VStr "download")
                     (configured false (service_with "{}")))).
  { vm_compute. pick_event. }
  split; [exact Hin|].
  destruct (migration_failure_after_overwrite (HO := failing_migration_host)
              _ _ Hin) as (Hreply & _).
  exact Hreply.
Defined.

(** The backup file that is not JSON, in Node. *)
Lemma unparsed_download_overwrites_witness :
  In (EDownload "Sub-Store" (Normal "<html>")) (calls (VStr "download") garbled)
  /\ restored "<html>" (app garbled)
     = Throw (Json.SyntaxError "Unexpected token in JSON: <html>")
  /\ storage_get (app (after (VStr "download") garbled)) = VStr "<html>".
Proof.
  assert (Hin : In (EDownload "Sub-Store" (Normal "<html>"))
                  (calls (VStr "download") garbled)).
  { vm_compute. pick_event. }
  assert (Hres : restored "<html>" (app garbled)
                 = Throw (Json.SyntaxError "Unexpected token in JSON: <html>"))
    by reflexivity.
  repeat (split; [assumption|]).
  destruct (unparsed_download_overwrites _ _ _ _ Hin Hres)
    as (_ & _ & Hget & _).
  exact Hget.
Defined.

(** A successful upload did call the remote service. *)
Lemma success_reply_means_completed_witness :
  replies (VStr "upload") (configured false empty_service) = [Success None]
  /\ exists blob,
       In (EUpload "Sub-Store" blob (Normal tt))
         (calls (VStr "upload") (configured false empty_service)).
Proof.
  assert (Hok : replies (VStr "upload") (configured false empty_service)
                = [Success None]) by reflexivity.
  split; [exact Hok|].
  destruct (success_reply_means_completed _ _ Hok) as (_ & _ & _ & Hup & _).
  exact (Hup eq_refl).
Defined.

(** The rollback write of a rejected upload is a write of the
    settings. *)
Lemma upload_writes_settings_only_witness :
  In (EWrite (settings token 1690000000000) "settings")
    (calls (VStr "upload") (configured false (failing_service rejected)))
  /\ is_migrate (EWrite (settings token 1690000000000) "settings") = false.
Proof.
  assert (Hin : In (EWrite (settings token 1690000000000) "settings")
                  (calls (VStr "upload")
                     (configured false (failing_service rejected)))).
  { vm_compute. pick_event. }
  split; [exact Hin|].
  destruct (upload_writes_settings_only _ _ Hin) as (_ & Hmig).
  exact Hmig.
Defined.

(** The cache assignment of a download in Node. *)
Lemma download_writes_document_only_witness :
  In (ESetCache (VObj []))
    (calls (VStr "download") (configured true (service_with "{}")))
  /\ is_write (ESetCache (VObj [])) = true
  /\ exists d,
       In (EDownload "Sub-Store" (Normal d))
         (calls (VStr "download") (configured true (service_with "{}"))).
Proof.
  assert (Hin : In (ESetCache (VObj []))
                  (calls (VStr "download")
                     (configured true (service_with "{}")))).
  { vm_compute. pick_event. }
  assert (Hw : is_write (ESetCache (VObj [])) = true) by reflexivity.
  repeat (split; [assumption|]).
  destruct (download_writes_document_only _ _ Hin Hw) as (d & Hd & _).
  exists d. exact Hd.
Defined.

(** A lookup that finds the node. *)
Lemma getNodeInfo_replies_once_witness :
  req_query (lookup_request (named "1.1.1.1")) <> VUndefined
  /\ req_query (lookup_request (named "1.1.1.1")) <> VNull
  /\ (getNodeInfo (HO := lookup_host) (SV := services)
        (lookup_request (named "1.1.1.1")) unconfigured).1 = Normal tt.
Proof.
  assert (Hu : req_query (lookup_request (named "1.1.1.1")) <> VUndefined)
    by discriminate.
  assert (Hn : req_query (lookup_request (named "1.1.1.1")) <> VNull)
    by discriminate.
  repeat (split; [assumption|]).
  destruct (getNodeInfo_replies_once (HO := lookup_host) (SV := services)
              _ unconfigured Hu Hn) as (Hsettles & _).
  exact Hsettles.
Defined.

(** An empty [lang] against [lang=zh-CN]. *)
Lemma getNodeInfo_lang_default_witness :
  member "lang" (VObj [("lang", VStr "")]) = Normal (VStr "")
  /\ truthy (VStr "") = false
  /\ member "lang" (VObj [("lang", VStr "zh-CN")]) = Normal (VStr "zh-CN")
  /\ getNodeInfo (HO := lookup_host) (SV := services)
       (mkRequest (named "1.1.1.1") (VObj [("lang", VStr "")])) unconfigured
     = getNodeInfo (HO := lookup_host) (SV := services)
         (mkRequest (named "1.1.1.1") (VObj [("lang", VStr "zh-CN")]))
         unconfigured.
Proof.
  assert (Hl : member "lang" (VObj [("lang", VStr "")]) = Normal (VStr ""))
    by reflexivity.
  assert (Hf : truthy (VStr "") = false) by reflexivity.
  assert (Hl' : member "lang" (VObj [("lang", VStr "zh-CN")])
                = Normal (VStr "zh-CN")) by reflexivity.
  repeat (split; [assumption|]).
  exact (getNodeInfo_lang_default (HO := lookup_host) (SV := services)
           _ _ _ _ unconfigured Hl Hf Hl').
Defined.

(** A proxy the producer does not know. *)
Lemma getNodeInfo_ignores_producer_failure_witness :
  member "lang" (req_query (lookup_request (VObj [("server", VStr "1.1.1.1")])))
    = Normal VUndefined
  /\ produce (Services := services)
       (req_body (lookup_request (VObj [("server", VStr "1.1.1.1")])))
     = Throw (TypeError "unsupported proxy")
  /\ answers (getNodeInfo (HO := lookup_host) (SV := services)
                (lookup_request (VObj [("server", VStr "1.1.1.1")])))
       unconfigured
     = [Success
          (Some
             (VObj
                [("shareUrl", VUndefined);
                 ("info",
                  VObj [("country", VStr "Australia");
                        ("query", VStr "1.1.1.1")])]))].
Proof.
  assert (Hl : member "lang"
                 (req_query (lookup_request (VObj [("server", VStr "1.1.1.1")])))
               = Normal VUndefined) by reflexivity.
  assert (Hp : produce (Services := services)
                 (req_body (lookup_request (VObj [("server", VStr "1.1.1.1")])))
               = Throw (TypeError "unsupported proxy")) by reflexivity.
  repeat (split; [assumption|]).
  rewrite (getNodeInfo_ignores_producer_failure (HO := lookup_host)
             (SV := services) _ unconfigured _ _ Hl Hp).
  reflexivity.
Defined.

(** A lookup that the service answers with a failure. *)
Lemma getNodeInfo_failure_reply_witness :
  member "lang" (req_query (lookup_request (named "example.invalid")))
    = Normal VUndefined
  /\ lookup_info (HO := lookup_host) (SV := services)
       (req_body (lookup_request (named "example.invalid")))
       (lang_or_default VUndefined)
     = Throw (new_Error (VStr "invalid query"))
  /\ answers (getNodeInfo (HO := lookup_host) (SV := services)
                (lookup_request (named "example.invalid"))) unconfigured
     = [Failed (NetworkError "FAILED_TO_GET_NODE_INFO" "Failed to get node info"
                  "Reason: Error: invalid query")].
Proof.
  assert (Hl : member "lang" (req_query (lookup_request (named "example.invalid")))
               = Normal VUndefined) by reflexivity.
  assert (He : lookup_info (HO := lookup_host) (SV := services)
                 (req_body (lookup_request (named "example.invalid")))
                 (lang_or_default VUndefined)
               = Throw (new_Error (VStr "invalid query"))) by reflexivity.
  repeat (split; [assumption|]).
  destruct (getNodeInfo_failure_reply (HO := lookup_host) (SV := services)
              _ unconfigured _ _ Hl He) as (Hreply & _).
  exact Hreply.
Defined.

(** A request without a body. *)
Lemma getNodeInfo_missing_proxy_witness :
  member "lang" (req_query (lookup_request VUndefined)) = Normal VUndefined
  /\ (req_body (lookup_request VUndefined) = VUndefined
      \/ req_body (lookup_request VUndefined) = VNull)
  /\ (getNodeInfo (HO := lookup_host) (SV := services)
        (lookup_request VUndefined) unconfigured).1 = Normal tt.
Proof.
  assert (Hl : member "lang" (req_query (lookup_request VUndefined))
               = Normal VUndefined) by reflexivity.
  assert (Hb : req_body (lookup_request VUndefined) = VUndefined
               \/ req_body (lookup_request VUndefined) = VNull)
    by (left; reflexivity).
  repeat (split; [assumption|]).
  destruct (getNodeInfo_missing_proxy (HO := lookup_host) (SV := services)
              _ unconfigured _ Hl Hb) as (Hsettles & _).
  exact Hsettles.
Defined.

(** A request without a query. *)
Lemma getNodeInfo_unreadable_query_witness :
  (req_query (mkRequest (named "1.1.1.1") VUndefined) = VUndefined
   \/ req_query (mkRequest (named "1.1.1.1") VUndefined) = VNull)
  /\ answers (getNodeInfo (HO := lookup_host) (SV := services)
                (mkRequest (named "1.1.1.1") VUndefined)) unconfigured = [].
Proof.
  assert (Hq : req_query (mkRequest (named "1.1.1.1") VUndefined) = VUndefined
               \/ req_query (mkRequest (named "1.1.1.1") VUndefined) = VNull)
    by (left; reflexivity).
  split; [exact Hq|].
  destruct (getNodeInfo_unreadable_query (HO := lookup_host) (SV := services)
              _ unconfigured Hq) as (_ & Hnone).
  exact Hnone.
Defined.

(** The answer for a node that is found. *)
Lemma read_info_strips_status_witness :
  read_info (HO := lookup_host) (VObj [("body", VStr (text_of found))])
    = Normal (VObj [("country", VStr "Australia"); ("query", VStr "1.1.1.1")])
  /\ member "status"
       (VObj [("country", VStr "Australia"); ("query", VStr "1.1.1.1")])
     = Normal VUndefined.
Proof.
  assert (Hinfo : read_info (HO := lookup_host)
                    (VObj [("body", VStr (text_of found))])
                  = Normal (VObj [("country", VStr "Australia");
                                  ("query", VStr "1.1.1.1")]))
    by reflexivity.
  split; [exact Hinfo|].
  destruct (read_info_strips_status (HO := lookup_host) _ _ Hinfo)
    as (body & data & _ & _ & _ & _ & Hstatus & _).
  exact Hstatus.
Defined.

(** The answer for a node that is not found. *)
Lemma read_info_reports_message_witness :
  member "body" (VObj [("body", VStr (text_of not_found))])
    = Normal (VStr (text_of not_found))
  /\ JSON_parse (Host := lookup_host) (ToString (VStr (text_of not_found)))
     = Normal not_found
  /\ member "status" not_found = Normal (VStr "fail")
  /\ VStr "fail" <> VStr "success"
  /\ member "message" not_found = Normal (VStr "invalid query")
  /\ "invalid query" <> ""
  /\ exists err,
       read_info (HO := lookup_host) (VObj [("body", VStr (text_of not_found))])
         = Throw err
       /\ ToString err = "Error: invalid query".
Proof.
  assert (Hbody : member "body" (VObj [("body", VStr (text_of not_found))])
                  = Normal (VStr (text_of not_found))) by reflexivity.
  assert (Hdata : JSON_parse (Host := lookup_host)
                    (ToString (VStr (text_of not_found)))
                  = Normal not_found) by reflexivity.
  assert (Hstatus : member "status" not_found = Normal (VStr "fail"))
    by reflexivity.
  assert (Hne : VStr "fail" <> VStr "success") by discriminate.
  assert (Hmsg : member "message" not_found = Normal (VStr "invalid query"))
    by reflexivity.
  assert (Hnonempty : "invalid query" <> "") by discriminate.
  repeat (split; [assumption|]).
  exact (read_info_reports_message (HO := lookup_host) _ _ _ _ _
           Hbody Hdata Hstatus Hne Hmsg Hnonempty).
Defined.

(** A posted state across a download that the remote service
    rejects. *)
Lemma storage_survives_failed_download_witness :
  In (EDownload "Sub-Store" (Throw rejected))
    (calls (VStr "download")
       (mkWorld
          (storage_post (VObj [("subs", VNull)])
             (app (configured false (failing_service rejected))))
          (remote (configured false (failing_service rejected)))
          (trace (configured false (failing_service rejected)))
          (sent (configured false (failing_service rejected)))))
  /\ storage_get
       (storage_post (VObj [("subs", VNull)])
          (app (configured false (failing_service rejected))))
     = VStr (text_of (VObj [("subs", VNull)])).
Proof.
  assert (Hin : In (EDownload "Sub-Store" (Throw rejected))
    (calls (VStr "download")
       (mkWorld
          (storage_post (VObj [("subs", VNull)])
             (app (configured false (failing_service rejected))))
          (remote (configured false (failing_service rejected)))
          (trace (configured false (failing_service rejected)))
          (sent (configured false (failing_service rejected)))))).
  { vm_compute. pick_event. }
  split; [exact Hin|].
  destruct (storage_survives_failed_download _ _ _ _ Hin) as (Hget & _).
  rewrite Hget. reflexivity.
Defined.

End MoreConcrete.
